(** * The Chancity admin panel: registrations, statistics, settings, login

    A shallow embedding of [backend/app/routers/admin.py] and
    [backend/app/routers/settings.py].

    Every handler is a function of the state of the world it talks to and
    returns its result together with the new state:
    - the admin handlers talk to the Appwrite document store.  The store is
      a collaborator outside the repository, so its state and its entry
      points are the members of the class [Admin.Appwrite], and every
      property is proved for any instance of it; the world also keeps the
      list of the calls made so far, each with its outcome;
    - the settings handlers talk to one file, [settings.json].  The file is
      kept at the level of what [json.load] makes of it: absent, unreadable,
      not JSON, or holding a JSON value.  A [json.dump] that succeeds leaves
      a file from which [json.load] reads the value dumped, when the file
      can be opened for reading at all.
    A Python exception is a [Raise]; [try ... except] is [try_except].
    Logger calls are left out: they format values already at hand and
    nothing they do reaches a response. *)

From Stdlib Require Import ZArith String List Ascii Bool Lia.
From stdpp Require Import base option gmap strings list fin_maps.
Import ListNotations.

#[local] Open Scope Z_scope.
#[local] Open Scope string_scope.
#[local] Open Scope list_scope.

(** ** Python strings *)

(** [str.lower] on one character.  Messages are byte strings; the bytes of
    the ASCII capitals are the only ones whose lower-casing can make or
    break an occurrence of ["search"] or ["not found"]. *)
Definition lower_char (c : ascii) : ascii :=
  let n := nat_of_ascii c in
  if ((65 <=? n)%nat && (n <=? 90)%nat)%bool then ascii_of_nat (n + 32) else c.

Fixpoint lower (s : string) : string :=
  match s with
  | EmptyString => EmptyString
  | String c s' => String (lower_char c) (lower s')
  end.

(** [sub in s] on strings. *)
Fixpoint str_in (sub s : string) : bool :=
  if String.prefix sub s then true
  else match s with
       | EmptyString => false
       | String _ s' => str_in sub s'
       end.

(** [x in [a, b, c]] on a list of strings. *)
Definition list_in (x : string) (l : list string) : bool :=
  existsb (String.eqb x) l.

(** ** JSON values, as [json.load] builds them and FastAPI sends them *)

#[local] Unset Elimination Schemes.
Inductive json : Type :=
| JNull
| JBool (b : bool)
| JInt (n : Z)
| JFloat (repr : string)
| JStr (s : string)
| JArr (items : list json)
| JObj (fields : gmap string json).
#[local] Set Elimination Schemes.

(** [type(v).__name__] *)
Definition type_name (v : json) : string :=
  match v with
  | JNull => "NoneType"
  | JBool _ => "bool"
  | JInt _ => "int"
  | JFloat _ => "float"
  | JStr _ => "str"
  | JArr _ => "list"
  | JObj _ => "dict"
  end.

(** ** Exceptions and the handler monad *)

(** [HTTPException] is what FastAPI turns into an error response; every
    other exception is kept by its [str(e)]. *)
Inductive exn : Type :=
| HTTPException (status_code : Z) (detail : string)
| Exception (message : string).

Inductive result (E A : Type) : Type :=
| Ok (a : A)
| Raise (e : E).
Arguments Ok {E A} a.
Arguments Raise {E A} e.

(** A computation over a world [W] that returns an [A] or raises an [E]. *)
Definition M (W E A : Type) : Type := W -> result E A * W.

Definition ret {W E A} (a : A) : M W E A := fun w => (Ok a, w).

Definition raise {W E A} (e : E) : M W E A := fun w => (Raise e, w).

Definition bind {W E A B} (m : M W E A) (k : A -> M W E B) : M W E B :=
  fun w => match m w with
           | (Ok a, w') => k a w'
           | (Raise e, w') => (Raise e, w')
           end.

(** [try: body except Exception as e: handler e].  What the body did to the
    world before it raised stays done. *)
Definition try_except {W E E' A} (body : M W E A) (handler : E -> M W E' A)
  : M W E' A :=
  fun w => match body w with
           | (Ok a, w') => (Ok a, w')
           | (Raise e, w') => handler e w'
           end.

Declare Scope py_scope.
Delimit Scope py_scope with py.
Notation "x <- m ;; k" := (bind m (fun x => k))
  (at level 100, m at next level, right associativity) : py_scope.
Notation "m ;;; k" := (bind m (fun _ => k))
  (at level 100, right associativity) : py_scope.
#[local] Open Scope py_scope.

(** The status line FastAPI answers with: 200 for a handler that returns,
    the exception's own code for an [HTTPException], 500 for anything else
    that escapes. *)
Definition http_status {A} (r : result exn A) : Z :=
  match r with
  | Ok _ => 200
  | Raise (HTTPException code _) => code
  | Raise (Exception _) => 500
  end.

(** * [admin.py] *)

Module Admin.

(** ** The Appwrite collaborator *)

(** [appwrite.query.Query]: the five query builders the router uses. *)
Inductive Query : Type :=
| Query_equal (attribute value : string)
| Query_search (attribute value : string)
| Query_limit (n : Z)
| Query_offset (n : Z)
| Query_order_desc (attribute : string).

(** The dict [list_documents] returns.  The router reads it with
    [response.get("documents", [])] and [response.get("total", 0)], so each
    key may be missing. *)
Record DocumentList : Type := {
  dl_documents : option (list json);
  dl_total : option Z
}.

(** The store behind [get_appwrite_client()], and the two configuration
    values every call passes on.  A call returns its result or raises with
    a message ([str(e)]); either way it may change the store. *)
Class Appwrite (Remote : Type) : Type := {
  appwrite_database_id : string;
  appwrite_collection_id : string;
  get_appwrite_client : M Remote string unit;
  list_documents : string -> string -> list Query -> M Remote string DocumentList;
  get_document : string -> string -> string -> M Remote string json;
  update_document :
    string -> string -> string -> gmap string json -> M Remote string json;
  delete_document : string -> string -> string -> M Remote string unit
}.

(** What was asked of the collaborator, and how it went. *)
Inductive call : Type :=
| Call_get_appwrite_client
| Call_list_documents (database_id collection_id : string) (queries : list Query)
| Call_get_document (database_id collection_id document_id : string)
| Call_update_document (database_id collection_id document_id : string)
    (data : gmap string json)
| Call_delete_document (database_id collection_id document_id : string).

Inductive event : Type :=
| Returned (c : call)
| Failed (c : call) (message : string).

Definition is_failed (ev : event) : bool :=
  match ev with Failed _ _ => true | Returned _ => false end.

Record World (Remote : Type) : Type := {
  remote : Remote;
  trace : list event
}.
Arguments remote {Remote} w.
Arguments trace {Remote} w.

Definition outcome {A} (c : call) (r : result string A) : event :=
  match r with
  | Ok _ => Returned c
  | Raise message => Failed c message
  end.

(** Run one call against the store and append it to the trace. *)
Definition perform {Remote A} (c : call) (f : M Remote string A)
  : M (World Remote) string A :=
  fun w =>
    let '(r, rem) := f (remote w) in
    (r, {| remote := rem; trace := trace w ++ [outcome c r] |}).

Section Calls.
Context {Remote : Type} `{!Appwrite Remote}.

Definition client : M (World Remote) string unit :=
  perform Call_get_appwrite_client get_appwrite_client.

Definition databases_list_documents (queries : list Query)
  : M (World Remote) string DocumentList :=
  perform
    (Call_list_documents appwrite_database_id appwrite_collection_id queries)
    (list_documents appwrite_database_id appwrite_collection_id queries).

Definition databases_get_document (document_id : string)
  : M (World Remote) string json :=
  perform
    (Call_get_document appwrite_database_id appwrite_collection_id document_id)
    (get_document appwrite_database_id appwrite_collection_id document_id).

Definition databases_update_document (document_id : string)
    (data : gmap string json) : M (World Remote) string json :=
  perform
    (Call_update_document appwrite_database_id appwrite_collection_id
       document_id data)
    (update_document appwrite_database_id appwrite_collection_id
       document_id data).

Definition databases_delete_document (document_id : string)
  : M (World Remote) string unit :=
  perform
    (Call_delete_document appwrite_database_id appwrite_collection_id
       document_id)
    (delete_document appwrite_database_id appwrite_collection_id document_id).
End Calls.

(** ** Request and response models *)

Record LoginRequest : Type := { username : string; password : string }.

Record LoginResponse : Type := {
  success : bool;
  message : string;
  user : option (gmap string string)
}.

(** The dict [list_registrations] returns. *)
Record RegistrationList : Type := {
  data : list json;
  total : Z;
  page : Z;
  limit : Z
}.

(** The dict [update_registration_status] returns. *)
Record StatusUpdated : Type := {
  su_success : bool;
  su_message : string;
  su_data : json
}.

(** The dict [delete_registration] returns. *)
Record Deleted : Type := { del_success : bool; del_message : string }.

(** [StatsResponse]; the fields are [total], [pending], [approved] and
    [rejected] in the source. *)
Record StatsResponse : Type := {
  stats_total : Z;
  stats_pending : Z;
  stats_approved : Z;
  stats_rejected : Z
}.

(** ** Login *)

Definition ADMIN_USERNAME : string := "admin".
Definition ADMIN_PASSWORD : string := "0000".

(** [utcnow] is [datetime.utcnow().isoformat()], the one thing the handler
    reads from outside its request. *)
Definition admin_login (utcnow : string) (request : LoginRequest)
  : result exn LoginResponse :=
  if (String.eqb (username request) ADMIN_USERNAME
      && String.eqb (password request) ADMIN_PASSWORD)%bool
  then Ok {| success := true;
             message := "Login successful";
             user := Some (<["username" := "admin"]>
                           (<["role" := "administrator"]>
                            (<["loginTime" := utcnow]> ∅))) |}
  else Raise (HTTPException 401 "Invalid credentials").

(** ** Registrations *)

Definition STATUSES : list string := ["pending"; "approved"; "rejected"].

(** Truth value of an [Optional[str]]: [None] and [""] are false. *)
Definition truthy (s : option string) : bool :=
  match s with
  | Some (String _ _) => true
  | _ => false
  end.

(** The [queries] list of [list_registrations], before pagination is
    appended. *)
Definition filters (search status : option string) : list Query :=
  (match status with
   | Some s =>
       if (truthy status && list_in s STATUSES)%bool
       then [Query_equal "status" s] else []
   | None => []
   end)
  ++
  (match search with
   | Some s => if truthy search then [Query_search "team_name" s] else []
   | None => []
   end).

Definition listing (response : DocumentList) (page limit : Z)
  : RegistrationList :=
  {| data := default [] (dl_documents response);
     total := default 0 (dl_total response);
     page := page;
     limit := limit |}.

(** Lines 183, 216 and 244: the test for a missing document. *)
Definition not_found (e : string) : bool :=
  (str_in "404" e || str_in "not found" (lower e))%bool.

Section Handlers.
Context {Remote : Type} `{!Appwrite Remote}.

(** The [except Exception as e] block of [list_registrations].
    [appwrite] is the local variable of that name: [None] when
    [get_appwrite_client()] itself raised, so that the name is unbound and
    the fallback's own [try] fails on it.  The inner computation yields
    [Some] for the fallback's [return] and [None] when control falls
    through to the final [raise]. *)
Definition list_registrations_except (appwrite : option unit)
    (page limit : Z) (e : string) : M (World Remote) exn RegistrationList :=
  returned <-
    (if str_in "search" (lower e) then
       try_except
         (match appwrite with
          | None =>
              raise "local variable 'appwrite' referenced before assignment"
          | Some _ =>
              response <- databases_list_documents
                            [Query_limit limit;
                             Query_offset ((page - 1) * limit)] ;;
              ret (Some (listing response page limit))
          end)
         (fun _ : string => ret None)
     else ret None) ;;
  match returned with
  | Some r => ret r
  | None => raise (HTTPException 500 ("Failed to list registrations: " +:+ e))
  end.

(** The [try] block is cut where [appwrite] gets bound: an exception from
    either part goes to the one [except] block, which differs only in
    whether it finds the name bound. *)
Definition list_registrations (page limit : Z)
    (search status : option string) : M (World Remote) exn RegistrationList :=
  fun w =>
    match client w with
    | (Raise e, w1) => list_registrations_except None page limit e w1
    | (Ok appwrite, w1) =>
        try_except
          (let queries := filters search status in
           let offset := (page - 1) * limit in
           response <- databases_list_documents
                         (queries ++
                          [Query_limit limit;
                           Query_offset offset;
                           Query_order_desc "$createdAt"]) ;;
           ret (listing response page limit))
          (list_registrations_except (Some appwrite) page limit)
          w1
    end.

Definition get_registration (registration_id : string)
  : M (World Remote) exn json :=
  try_except
    (client ;;;
     response <- databases_get_document registration_id ;;
     ret response)
    (fun e =>
       if not_found e
       then raise (HTTPException 404 "Registration not found")
       else raise (HTTPException 500 ("Failed to get registration: " +:+ e))).

Definition update_registration_status (registration_id status : string)
  : M (World Remote) exn StatusUpdated :=
  if negb (list_in status STATUSES)
  then raise (HTTPException 400
                "Invalid status. Must be: pending, approved, or rejected")
  else
    try_except
      (client ;;;
       response <- databases_update_document registration_id
                     (<["status" := JStr status]> ∅) ;;
       ret {| su_success := true;
              su_message := "Status updated to " +:+ status;
              su_data := response |})
      (fun e =>
         if not_found e
         then raise (HTTPException 404 "Registration not found")
         else raise (HTTPException 500
                       ("Failed to update registration: " +:+ e))).

Definition delete_registration (registration_id : string)
  : M (World Remote) exn Deleted :=
  try_except
    (client ;;;
     databases_delete_document registration_id ;;;
     ret {| del_success := true;
            del_message := "Registration deleted successfully" |})
    (fun e =>
       if not_found e
       then raise (HTTPException 404 "Registration not found")
       else raise (HTTPException 500
                     ("Failed to delete registration: " +:+ e))).

Definition get_stats : M (World Remote) exn StatsResponse :=
  try_except
    (client ;;;
     total_response <- databases_list_documents [Query_limit 1] ;;
     let total := default 0 (dl_total total_response) in
     pending_response <- databases_list_documents
                           [Query_equal "status" "pending"; Query_limit 1] ;;
     let pending := default 0 (dl_total pending_response) in
     approved_response <- databases_list_documents
                            [Query_equal "status" "approved"; Query_limit 1] ;;
     let approved := default 0 (dl_total approved_response) in
     rejected_response <- databases_list_documents
                            [Query_equal "status" "rejected"; Query_limit 1] ;;
     let rejected := default 0 (dl_total rejected_response) in
     ret {| stats_total := total;
            stats_pending := pending;
            stats_approved := approved;
            stats_rejected := rejected |})
    (fun _ : string =>
       ret {| stats_total := 0; stats_pending := 0;
              stats_approved := 0; stats_rejected := 0 |}).

End Handlers.

(** ** The bounds on the query parameters *)



(** ** Reading a trace *)

Definition call_of (ev : event) : call :=
  match ev with
  | Returned c => c
  | Failed c _ => c
  end.



Section Statistics.
Context {Remote : Type} `{!Appwrite Remote}.

(** What [get_stats] asks for, in the order of the source. *)
Definition stats_calls : list call :=
  [ Call_get_appwrite_client;
    Call_list_documents appwrite_database_id appwrite_collection_id
      [Query_limit 1];
    Call_list_documents appwrite_database_id appwrite_collection_id
      [Query_equal "status" "pending"; Query_limit 1];
    Call_list_documents appwrite_database_id appwrite_collection_id
      [Query_equal "status" "approved"; Query_limit 1];
    Call_list_documents appwrite_database_id appwrite_collection_id
      [Query_equal "status" "rejected"; Query_limit 1] ].

End Statistics.

End Admin.

(** * [settings.py] *)

Module Settings.

(** ** The settings file *)

(** [settings.json] as [load_settings] meets it. *)
Inductive File : Type :=
| Missing                     (* [os.path.exists] is false *)
| Unreadable (err : string)   (* [open(.., 'r')] raises *)
| Garbled (err : string)      (* [json.load] raises *)
| Holds (value : json).       (* [json.load] returns [value] *)

(** Which step of [save_settings] the file system refuses, if any. *)
Inductive Fault : Type :=
| NoFault
| MakedirsFails (err : string)
| OpenFails (err : string)
| DumpFails (err : string).

Record Disk : Type := { file : File; fault : Fault }.

Definition os_path_exists {E} : M Disk E bool :=
  fun d => (Ok (match file d with Missing => false | _ => true end), d).

(** [with open(SETTINGS_FILE, 'r') as f: json.load(f)] *)
Definition open_json_load : M Disk string json :=
  fun d =>
    match file d with
    | Missing => (Raise "[Errno 2] No such file or directory", d)
    | Unreadable err => (Raise err, d)
    | Garbled err => (Raise err, d)
    | Holds value => (Ok value, d)
    end.

(** [os.makedirs(os.path.dirname(SETTINGS_FILE), exist_ok=True)] *)
Definition os_makedirs : M Disk string unit :=
  fun d =>
    match fault d with
    | MakedirsFails err => (Raise err, d)
    | _ => (Ok tt, d)
    end.

(** What a reader meets after a write.  Writing changes what the file
    contains, not who may read it: a file that [open(.., 'r')] refuses
    (a write-only [settings.json]) is refused as before, whatever has been
    written to it. *)
Definition written (before now : File) : File :=
  match before with
  | Unreadable err => Unreadable err
  | _ => now
  end.

(** [open(SETTINGS_FILE, 'w')]: once it succeeds the file exists and is
    empty, which [json.load] rejects. *)
Definition open_w : M Disk string unit :=
  fun d =>
    match fault d with
    | OpenFails err => (Raise err, d)
    | _ => (Ok tt,
            {| file := written (file d)
                         (Garbled "Expecting value: line 1 column 1 (char 0)");
               fault := fault d |})
    end.

(** [json.dump(data, f, indent=2)] and the end of the [with] block. *)
Definition json_dump (data : json) : M Disk string unit :=
  fun d =>
    match fault d with
    | DumpFails err => (Raise err, d)
    | _ => (Ok tt,
            {| file := written (file d) (Holds data); fault := fault d |})
    end.

Definition DEFAULT_SETTINGS : json :=
  JObj (<["registration_open" := JBool true]> ∅).

(** The body yields [Some] for its [return] and [None] when control leaves
    the [try] statement, either way, for the last line. *)
Definition load_settings {E} : M Disk E json :=
  returned <-
    try_except
      (there <- os_path_exists ;;
       if there : bool
       then value <- open_json_load ;; ret (Some value)
       else ret None)
      (fun _ : string => ret None) ;;
  match returned with
  | Some value => ret value
  | None => ret DEFAULT_SETTINGS
  end.

Definition save_settings {E} (data : json) : M Disk E bool :=
  try_except
    (os_makedirs ;;;
     open_w ;;;
     json_dump data ;;;
     ret true)
    (fun _ : string => ret false).

(** ** What Python and pydantic do to the loaded value *)

(** [d.get(key, default)] *)
Definition dict_get {W} (d : json) (key : string) (fallback : json)
  : M W exn json :=
  match d with
  | JObj fields => ret (default fallback (fields !! key))
  | _ => raise (Exception
                  ("'" +:+ type_name d +:+ "' object has no attribute 'get'"))
  end.

(** [d[key] = value], for a string [key] *)
Definition dict_setitem {W} (d : json) (key : string) (value : json)
  : M W exn json :=
  match d with
  | JObj fields => ret (JObj (<[key := value]> fields))
  | JArr _ =>
      raise (Exception "list indices must be integers or slices, not str")
  | _ => raise (Exception
                  ("'" +:+ type_name d +:+
                   "' object does not support item assignment"))
  end.

(** pydantic validates a [bool] field: a boolean is taken as it is; what
    else is accepted, and the text of the error raised otherwise, is up to
    the installed pydantic. *)
Class Pydantic : Type := {
  coerce_bool : json -> option bool;
  validation_error : json -> string
}.

Record SettingsResponse : Type := { registration_open : bool }.

(** The request body of [update_settings]: [Optional[bool] = None]. *)
Record SettingsUpdateRequest : Type := {
  requested_registration_open : option bool
}.

(** [SettingsResponse(registration_open=value)] *)
Definition new_SettingsResponse `{Pydantic} {W} (value : json)
  : M W exn SettingsResponse :=
  match value with
  | JBool b => ret {| registration_open := b |}
  | _ =>
      match coerce_bool value with
      | Some b => ret {| registration_open := b |}
      | None => raise (Exception (validation_error value))
      end
  end.

(** ** Handlers *)

Section Handlers.
Context `{Pydantic}.

(** The first [dict_get] is the one inside the log line's f-string. *)
Definition get_settings : M Disk exn SettingsResponse :=
  try_except
    (current_settings <- load_settings ;;
     dict_get current_settings "registration_open" (JBool true) ;;;
     value <- dict_get current_settings "registration_open" (JBool true) ;;
     new_SettingsResponse value)
    (fun _ : exn => new_SettingsResponse (JBool true)).

Definition update_settings (request : SettingsUpdateRequest)
  : M Disk exn SettingsResponse :=
  try_except
    (current_settings <- load_settings ;;
     current_settings <-
       match requested_registration_open request with
       | Some b => dict_setitem current_settings "registration_open" (JBool b)
       | None => ret current_settings
       end ;;
     saved <- save_settings current_settings ;;
     if saved : bool
     then value <- dict_get current_settings "registration_open" (JBool true) ;;
          new_SettingsResponse value
     else raise (HTTPException 500 "Failed to save settings"))
    (fun e : exn =>
       match e with
       | HTTPException _ _ => raise e
       | Exception message =>
           raise (HTTPException 500
                    ("Failed to update settings: " +:+ message))
       end).

Definition get_registration_status : M Disk exn json :=
  try_except
    (current_settings <- load_settings ;;
     value <- dict_get current_settings "registration_open" (JBool true) ;;
     ret (JObj (<["registration_open" := value]> ∅)))
    (fun _ : exn => ret (JObj (<["registration_open" := JBool true]> ∅))).

End Handlers.

(** One pydantic: the lax mode's table for [bool].  A float is kept by
    its [repr], so the floats equal to 0 and 1 are ["0.0"], ["-0.0"] and
    ["1.0"]. *)
Definition lax_bool (value : json) : option bool :=
  match value with
  | JInt 0 => Some false
  | JInt 1 => Some true
  | JFloat repr =>
      if list_in repr ["0.0"; "-0.0"] then Some false
      else if String.eqb repr "1.0" then Some true
      else None
  | JStr s =>
      if list_in (lower s) ["0"; "off"; "f"; "false"; "n"; "no"]
      then Some false
      else if list_in (lower s) ["1"; "on"; "t"; "true"; "y"; "yes"]
      then Some true
      else None
  | _ => None
  end.

(** The error text is the first line of pydantic's; the lines after it
    name the field and the input and vary with the version. *)
#[export] Instance lax : Pydantic := {|
  coerce_bool := lax_bool;
  validation_error := fun _ => "1 validation error for SettingsResponse"
|}.

(** ** Files the service itself can have written *)

(** A mapping whose [registration_open], if it has one, is a boolean. *)
Definition flag_is_boolean (m : gmap string json) : Prop :=
  m !! "registration_open" = None \/
  exists b, m !! "registration_open" = Some (JBool b).

(** No file, a file that does not load, or one that holds such a mapping. *)
Definition well_formed (f : File) : Prop :=
  match f with
  | Holds (JObj m) => flag_is_boolean m
  | Holds _ => False
  | _ => True
  end.

End Settings.

(** * A store that follows a script

    One concrete [Appwrite]: the store's state is the list of the outcomes
    of the calls still to come, [None] for a call that goes through and
    [Some message] for one that raises.  Past the end of the script every
    call goes through. *)

Module Scripted.
Import Admin.

Definition Script : Type := list (option string).

Definition sample_document : json :=
  JObj (<["team_name" := JStr "Rovers"]> (<["status" := JStr "pending"]> ∅)).

Definition answer {A} (a : A) : M Script string A :=
  fun s =>
    match s with
    | Some message :: s' => (Raise message, s')
    | None :: s' => (Ok a, s')
    | [] => (Ok a, [])
    end.

#[export] Instance appwrite : Appwrite Script := {|
  appwrite_database_id := "chancity";
  appwrite_collection_id := "registrations";
  get_appwrite_client := ret tt;
  list_documents := fun _ _ _ =>
    answer {| dl_documents := Some [sample_document]; dl_total := Some 1 |};
  get_document := fun _ _ _ => answer sample_document;
  update_document := fun _ _ _ data => answer (JObj data);
  delete_document := fun _ _ _ => answer tt
|}.

Definition start (s : Script) : World Script := {| remote := s; trace := [] |}.

(** The same store behind a client whose construction follows the script
    too. *)
Definition guarded : Appwrite Script := {|
  appwrite_database_id := "chancity";
  appwrite_collection_id := "registrations";
  get_appwrite_client := answer tt;
  list_documents := fun _ _ _ =>
    answer {| dl_documents := Some [sample_document]; dl_total := Some 1 |};
  get_document := fun _ _ _ => answer sample_document;
  update_document := fun _ _ _ data => answer (JObj data);
  delete_document := fun _ _ _ => answer tt
|}.

End Scripted.

(** * Properties of the admin router *)

Section AdminProperties.
Import Admin.
Context {Remote : Type} `{!Appwrite Remote}.

Lemma perform_run {A} (c : call) (f : M Remote string A) (w : World Remote)
    (r : result string A) (rem : Remote) :
  f (remote w) = (r, rem) ->
  perform c f w = (r, {| remote := rem; trace := trace w ++ [outcome c r] |}).
Proof. intros Hf. unfold perform. rewrite Hf. reflexivity. Qed.

Lemma perform_trace {A} (c : call) (f : M Remote string A) (w : World Remote) :
  trace (snd (perform c f w)) = trace w ++ [outcome c (fst (perform c f w))].
Proof. unfold perform. destruct (f (remote w)) as [r rem]. reflexivity. Qed.

Lemma perform_raised {A} (c : call) (f : M Remote string A)
    (w w' : World Remote) (e : string) :
  perform c f w = (Raise e, w') -> trace w' = trace w ++ [Failed c e].
Proof.
  intros Hp. pose proof (perform_trace c f w) as Ht.
  rewrite Hp in Ht. exact Ht.
Qed.

Lemma perform_returned {A} (c : call) (f : M Remote string A)
    (w w' : World Remote) (a : A) :
  perform c f w = (Ok a, w') -> trace w' = trace w ++ [Returned c].
Proof.
  intros Hp. pose proof (perform_trace c f w) as Ht.
  rewrite Hp in Ht. exact Ht.
Qed.

Lemma list_in_spec (x : string) (l : list string) :
  list_in x l = true <-> In x l.
Proof.
  unfold list_in. rewrite existsb_exists. split.
  - intros [y [Hy Heq]]. apply String.eqb_eq in Heq. subst. exact Hy.
  - intros Hx. exists x. split; [exact Hx | apply String.eqb_refl].
Qed.

(** Whatever [list_registrations] raises is a 500. *)
Lemma list_registrations_except_raises (appwrite : option unit)
    (page limit : Z) (e : string) (w w' : World Remote) (err : exn) :
  list_registrations_except appwrite page limit e w = (Raise err, w') ->
  err = HTTPException 500 ("Failed to list registrations: " +:+ e).
Proof.
  unfold list_registrations_except, bind, try_except, ret, raise.
  destruct (str_in "search" (lower e)).
  - destruct appwrite as [u|].
    + destruct (databases_list_documents _ w) as [[response|e2] w2];
        intros Heq; inversion Heq; reflexivity.
    + intros Heq; inversion Heq; reflexivity.
  - intros Heq; inversion Heq; reflexivity.
Qed.

Lemma list_registrations_raises (page limit : Z) (search status : option string)
    (w w' : World Remote) (err : exn) :
  list_registrations page limit search status w = (Raise err, w') ->
  exists e, err = HTTPException 500 ("Failed to list registrations: " +:+ e).
Proof.
  unfold list_registrations.
  destruct (client w) as [[u|e] w1].
  - unfold try_except at 1, bind, ret.
    destruct (databases_list_documents _ w1) as [[response|e] w2].
    + intros Heq; inversion Heq.
    + intros Heq. exists e.
      eapply list_registrations_except_raises; exact Heq.
  - intros Heq. exists e.
    eapply list_registrations_except_raises; exact Heq.
Qed.

(** C1.  Let the client be built and the first [list_documents] call, the
    one with every filter, raise with message [e].  If ["search"] occurs
    in [e] lower-cased, [list_documents] is called once more, with the
    limit and the offset [(page - 1) * limit] and nothing else: when that
    call returns, the handler returns its documents and total with the
    page and the limit (status 200); when it raises, the handler raises a
    500 that carries [e].  If ["search"] does not occur, there is no second
    call and the handler raises the same 500.  The trace shows the calls
    made in each case. *)
Theorem list_registrations_search_fallback (page limit : Z)
    (search status : option string) (w : World Remote)
    (r1 r2 r3 : Remote) (e : string) (retry : result string DocumentList) :
  get_appwrite_client (remote w) = (Ok tt, r1) ->
  list_documents appwrite_database_id appwrite_collection_id
    (filters search status ++
     [Query_limit limit; Query_offset ((page - 1) * limit);
      Query_order_desc "$createdAt"]) r1 = (Raise e, r2) ->
  list_documents appwrite_database_id appwrite_collection_id
    [Query_limit limit; Query_offset ((page - 1) * limit)] r2 = (retry, r3) ->
  let first :=
    Call_list_documents appwrite_database_id appwrite_collection_id
      (filters search status ++
       [Query_limit limit; Query_offset ((page - 1) * limit);
        Query_order_desc "$createdAt"]) in
  let second :=
    Call_list_documents appwrite_database_id appwrite_collection_id
      [Query_limit limit; Query_offset ((page - 1) * limit)] in
  let failure :=
    HTTPException 500 ("Failed to list registrations: " +:+ e) in
  (str_in "search" (lower e) = true ->
   (forall response, retry = Ok response ->
      list_registrations page limit search status w =
        (Ok {| data := default [] (dl_documents response);
               total := default 0 (dl_total response);
               page := page;
               limit := limit |},
         {| remote := r3;
            trace := trace w ++ [Returned Call_get_appwrite_client;
                                 Failed first e; Returned second] |})
      /\ http_status (fst (list_registrations page limit search status w))
         = 200) /\
   (forall e2, retry = Raise e2 ->
      list_registrations page limit search status w =
        (Raise failure,
         {| remote := r3;
            trace := trace w ++ [Returned Call_get_appwrite_client;
                                 Failed first e; Failed second e2] |}))) /\
  (str_in "search" (lower e) = false ->
   list_registrations page limit search status w =
     (Raise failure,
      {| remote := r2;
         trace := trace w ++ [Returned Call_get_appwrite_client;
                              Failed first e] |})).
Proof.
  intros Hclient Hfirst Hretry first second failure.
  assert (Hrun : list_registrations page limit search status w =
                 list_registrations_except (Some tt) page limit e
                   {| remote := r2;
                      trace := trace w ++ [Returned Call_get_appwrite_client;
                                           Failed first e] |}).
  { unfold list_registrations, client.
    rewrite (perform_run _ _ _ _ _ Hclient). simpl.
    unfold try_except at 1, bind, databases_list_documents.
    erewrite perform_run by (simpl; exact Hfirst). simpl.
    rewrite <- app_assoc. reflexivity. }
  rewrite Hrun. clear Hrun.
  unfold list_registrations_except, bind, try_except, ret, raise,
    databases_list_documents.
  split.
  - intros Hsearch. rewrite Hsearch.
    erewrite perform_run by (simpl; exact Hretry). simpl.
    rewrite <- app_assoc. simpl.
    split.
    + intros response ->. split; reflexivity.
    + intros e2 ->. reflexivity.
  - intros Hsearch. rewrite Hsearch. reflexivity.
Qed.

(** C9.  A status that is not one of [pending], [approved], [rejected]
    (the empty string included) adds no filter.  No [list_documents] call
    the handler sends, the first or the fallback, carries an equality
    query, on [status] or on anything else; the queries the handler builds
    are those of a call without status, none of them an equality on
    [status]; the whole run (result, store, trace) is that of the call
    without status; and the only error the handler can end in is a 500,
    never a validation error. *)
Theorem list_registrations_ignores_unknown_status (page limit : Z)
    (search : option string) (status : string) (w : World Remote) :
  list_in status STATUSES = false ->
  (exists evs,
     trace (snd (list_registrations page limit search (Some status) w))
     = trace w ++ evs /\
     forall ev database_id collection_id queries,
       In ev evs ->
       call_of ev = Call_list_documents database_id collection_id queries ->
       forall attribute value, ~ In (Query_equal attribute value) queries) /\
  filters search (Some status) = filters search None /\
  (forall value, ~ In (Query_equal "status" value)
                      (filters search (Some status))) /\
  list_registrations page limit search (Some status) w =
    list_registrations page limit search None w /\
  (forall err w',
     list_registrations page limit search (Some status) w = (Raise err, w') ->
     http_status (@Raise exn RegistrationList err) = 500).
Proof.
  intros Hout.
  assert (Hfilters : filters search (Some status) = filters search None).
  { unfold filters. rewrite Hout, andb_false_r. reflexivity. }
  assert (Hnone : forall attribute value,
            ~ In (Query_equal attribute value) (filters search None)).
  { intros attribute value. unfold filters. simpl.
    destruct search as [s|]; [destruct (truthy (Some s)) |]; simpl;
      intros Hin; repeat (destruct Hin as [Hin|Hin]; [discriminate Hin |]);
      exact Hin. }
  split.
  { assert (Hfirst : forall attribute value,
              ~ In (Query_equal attribute value)
                   (filters search (Some status) ++
                    [Query_limit limit; Query_offset ((page - 1) * limit);
                     Query_order_desc "$createdAt"])).
    { intros attribute value. rewrite Hfilters, in_app_iff.
      intros [Hin | Hin]; [exact (Hnone _ _ Hin) |].
      simpl in Hin.
      repeat (destruct Hin as [Hin|Hin]; [discriminate Hin |]). exact Hin. }
    assert (Hsecond : forall attribute value,
              ~ In (Query_equal attribute value)
                   [Query_limit limit; Query_offset ((page - 1) * limit)]).
    { intros attribute value Hin. simpl in Hin.
      repeat (destruct Hin as [Hin|Hin]; [discriminate Hin |]). exact Hin. }
    unfold list_registrations, list_registrations_except, try_except, bind,
      ret, raise, client, databases_list_documents.
    repeat first
      [ match goal with
        | |- context [perform ?c ?f ?w0] =>
            let r := fresh "r" in
            let w1 := fresh "w" in
            let Hp := fresh "Hp" in
            destruct (perform c f w0) as [[r|r] w1] eqn:Hp;
            [apply perform_returned in Hp | apply perform_raised in Hp]
        end
      | destruct (str_in "search" (lower _)) ];
      simpl; eexists;
      (split;
       [repeat match goal with
               | Ht : trace ?w1 = _ |- context [trace ?w1] =>
                   rewrite Ht; clear Ht
               end;
        rewrite <- ?app_assoc; reflexivity |]);
      intros ev database_id collection_id queries Hin Hcall;
      simpl in Hin;
      repeat (destruct Hin as [<- | Hin]; [simpl in Hcall |]);
      try (destruct Hin);
      try discriminate Hcall;
      inversion Hcall; subst; first [exact Hfirst | exact Hsecond]. }
  split; [exact Hfilters |].
  split.
  { intros value. rewrite Hfilters. apply Hnone. }
  split.
  { unfold list_registrations. rewrite Hfilters. reflexivity. }
  intros err w' Hrun.
  destruct (list_registrations_raises _ _ _ _ _ _ _ Hrun) as [e ->].
  reflexivity.
Qed.

(** C3.  With a status outside [pending], [approved], [rejected] the
    handler raises the 400 and leaves the world as it found it: the store
    is in the state it was in and the trace has no new call, not even the
    construction of the client. *)
Theorem update_registration_status_rejects_first (registration_id status : string)
    (w : World Remote) :
  list_in status STATUSES = false ->
  update_registration_status registration_id status w =
    (Raise (HTTPException 400
              "Invalid status. Must be: pending, approved, or rejected"),
     w).
Proof.
  intros Hout. unfold update_registration_status. rewrite Hout. reflexivity.
Qed.

(** The [except] block the three handlers share. *)
Lemma error_path_codes {A} (body : M (World Remote) string A) (what : string)
    (w w' : World Remote) (err : exn) :
  try_except body
    (fun e =>
       if not_found e
       then raise (HTTPException 404 "Registration not found")
       else raise (HTTPException 500 (what +:+ e))) w = (Raise err, w') ->
  exists e, body w = (Raise e, w') /\
            err = if not_found e
                  then HTTPException 404 "Registration not found"
                  else HTTPException 500 (what +:+ e).
Proof.
  unfold try_except. destruct (body w) as [[a|e] w1].
  - intros Heq; inversion Heq.
  - intros Heq. exists e. destruct (not_found e); inversion Heq; auto.
Qed.

(** A [try] block that builds the client and makes one store call raises
    only when one of the two does, and that call is then the last event. *)
Lemma client_then_call_raised {A} (c : call) (f : M Remote string A)
    (w w' : World Remote) (e : string) :
  (client ;;; perform c f) w = (Raise e, w') ->
  exists c' evs, trace w' = trace w ++ evs ++ [Failed c' e].
Proof.
  unfold bind. destruct (client w) as [[u|e1] w1] eqn:Hclient.
  - intros Hcall. apply perform_raised in Hcall.
    unfold client in Hclient. apply perform_returned in Hclient.
    exists c, [Returned Call_get_appwrite_client].
    rewrite Hcall, Hclient, <- app_assoc. reflexivity.
  - intros Heq. inversion Heq; subst.
    unfold client in Hclient. apply perform_raised in Hclient.
    exists Call_get_appwrite_client, []. exact Hclient.
Qed.

(** C6.  When the client is built and the store call of [get], of [update]
    (with a valid status) or of [delete] raises with message [e], the
    handler raises 404 "Registration not found" if [e] contains ["404"] or,
    lower-cased, ["not found"], and otherwise a 500 whose detail ends in
    [e].  Conversely, whatever any of the three raises once the status has
    been checked is one of these two, for the message [e'] of the call that
    failed last in the run: 404 and 500 are the only codes. *)
Theorem store_failure_is_404_or_500 (registration_id status e : string)
    (w : World Remote) :
  list_in status STATUSES = true ->
  let answer what :=
    if not_found e
    then HTTPException 404 "Registration not found"
    else HTTPException 500 (what +:+ e) in
  (forall r1 r2,
     get_appwrite_client (remote w) = (Ok tt, r1) ->
     get_document appwrite_database_id appwrite_collection_id
       registration_id r1 = (Raise e, r2) ->
     fst (get_registration registration_id w)
     = Raise (answer "Failed to get registration: ")) /\
  (forall r1 r2,
     get_appwrite_client (remote w) = (Ok tt, r1) ->
     update_document appwrite_database_id appwrite_collection_id
       registration_id (<["status" := JStr status]> ∅) r1 = (Raise e, r2) ->
     fst (update_registration_status registration_id status w)
     = Raise (answer "Failed to update registration: ")) /\
  (forall r1 r2,
     get_appwrite_client (remote w) = (Ok tt, r1) ->
     delete_document appwrite_database_id appwrite_collection_id
       registration_id r1 = (Raise e, r2) ->
     fst (delete_registration registration_id w)
     = Raise (answer "Failed to delete registration: ")) /\
  (forall err w',
     get_registration registration_id w = (Raise err, w')
     \/ update_registration_status registration_id status w = (Raise err, w')
     \/ delete_registration registration_id w = (Raise err, w') ->
     exists c e' evs what,
       trace w' = trace w ++ evs ++ [Failed c e'] /\
       err = (if not_found e'
              then HTTPException 404 "Registration not found"
              else HTTPException 500 (what +:+ e')) /\
       (http_status (@Raise exn unit err) = 404
        \/ http_status (@Raise exn unit err) = 500)).
Proof.
  intros Hvalid answer.
  assert (Hc : forall r1, get_appwrite_client (remote w) = (Ok tt, r1) ->
               client w = (Ok tt, {| remote := r1;
                                     trace := trace w ++
                                       [Returned Call_get_appwrite_client] |})).
  { intros r1 Hclient. unfold client. apply (perform_run _ _ _ _ _ Hclient). }
  split; [| split; [| split]].
  - intros r1 r2 Hclient Hget. unfold get_registration, try_except, bind.
    rewrite (Hc _ Hclient). unfold databases_get_document.
    erewrite perform_run by (simpl; exact Hget).
    unfold answer. destruct (not_found e); reflexivity.
  - intros r1 r2 Hclient Hupd.
    unfold update_registration_status. rewrite Hvalid. simpl.
    unfold try_except, bind. rewrite (Hc _ Hclient).
    unfold databases_update_document.
    erewrite perform_run by (simpl; exact Hupd).
    unfold answer. destruct (not_found e); reflexivity.
  - intros r1 r2 Hclient Hdel. unfold delete_registration, try_except, bind.
    rewrite (Hc _ Hclient). unfold databases_delete_document.
    erewrite perform_run by (simpl; exact Hdel).
    unfold answer. destruct (not_found e); reflexivity.
  - intros err w' Hraise.
    assert (Hcode : forall what e',
              (if not_found e'
               then HTTPException 404 "Registration not found"
               else HTTPException 500 (what +:+ e')) = err ->
              http_status (@Raise exn unit err) = 404
              \/ http_status (@Raise exn unit err) = 500).
    { intros what e' <-. destruct (not_found e'); [left | right]; reflexivity. }
    assert (Hshape : forall A B c (f : M Remote string A) (k : A -> B) e',
              (client ;;; a <- perform c f ;; ret (k a)) w = (Raise e', w') ->
              (client ;;; perform c f) w = (Raise e', w')).
    { intros A B c f k e'. unfold bind, ret.
      destruct (client w) as [[u|e1] w1];
        [| intros Heq; inversion Heq; reflexivity].
      destruct (perform c f w1) as [[a|e2] w2]; intros Heq;
        [discriminate Heq | inversion Heq; reflexivity]. }
    destruct Hraise as [Hraise | [Hraise | Hraise]].
    + unfold get_registration in Hraise.
      apply error_path_codes in Hraise as [e' [Hbody ->]].
      apply (Hshape _ _ _ _ (fun response => response)) in Hbody.
      apply client_then_call_raised in Hbody as [c [evs Htrace]].
      exists c, e', evs, "Failed to get registration: ".
      split; [exact Htrace |].
      split; [reflexivity | eapply Hcode; reflexivity].
    + unfold update_registration_status in Hraise.
      rewrite Hvalid in Hraise. simpl in Hraise.
      apply error_path_codes in Hraise as [e' [Hbody ->]].
      apply (Hshape _ _ _ _
               (fun response =>
                  {| su_success := true;
                     su_message := "Status updated to " +:+ status;
                     su_data := response |})) in Hbody.
      apply client_then_call_raised in Hbody as [c [evs Htrace]].
      exists c, e', evs, "Failed to update registration: ".
      split; [exact Htrace |].
      split; [reflexivity | eapply Hcode; reflexivity].
    + unfold delete_registration in Hraise.
      apply error_path_codes in Hraise as [e' [Hbody ->]].
      apply (Hshape _ _ _ _
               (fun _ : unit =>
                  {| del_success := true;
                     del_message := "Registration deleted successfully" |}))
        in Hbody.
      apply client_then_call_raised in Hbody as [c [evs Htrace]].
      exists c, e', evs, "Failed to delete registration: ".
      split; [exact Htrace |].
      split; [reflexivity | eapply Hcode; reflexivity].
Qed.

(** C4.  [get_stats] always returns, with status 200.  The events it adds
    to the trace are the construction of the client and the count queries
    it sent; if any of them failed, all four counts are zero, whatever the
    earlier queries had returned. *)
Theorem get_stats_fail_soft (w : World Remote) :
  exists stats w' evs,
    get_stats w = (Ok stats, w') /\
    http_status (fst (get_stats w)) = 200 /\
    trace w' = trace w ++ evs /\
    (existsb is_failed evs = true ->
     stats = {| stats_total := 0; stats_pending := 0;
                stats_approved := 0; stats_rejected := 0 |}).
Proof.
  unfold get_stats, try_except, bind, ret, client, databases_list_documents.
  repeat
    match goal with
    | |- context [perform ?c ?f ?w0] =>
        let r := fresh "r" in
        let w1 := fresh "w" in
        let Hp := fresh "Hp" in
        destruct (perform c f w0) as [[r|r] w1] eqn:Hp;
        [apply perform_returned in Hp | apply perform_raised in Hp]
    end;
    eexists _, _, _;
    (split; [reflexivity |]); (split; [reflexivity |]);
    repeat match goal with
           | H : trace ?w1 = _ |- context [trace ?w1] => rewrite H; clear H
           end;
    rewrite <- ?app_assoc;
    (split; [reflexivity |]);
    simpl; intros Hfailed; first [reflexivity | discriminate Hfailed].
Qed.

(** C2.  [admin_login] returns exactly for the pair ("admin", "0000"); what
    it returns then carries the role "administrator" and the time read
    from the clock.  For every other pair it raises 401 "Invalid
    credentials", so that any two rejected attempts, whichever field was
    wrong and whenever they were made, get the same answer. *)
Theorem admin_login_only_admin (utcnow : string) (request : LoginRequest) :
  ((exists response, admin_login utcnow request = Ok response)
   <-> username request = "admin" /\ password request = "0000") /\
  (forall response,
     admin_login utcnow request = Ok response ->
     success response = true /\
     exists u, user response = Some u /\
               u !! "role" = Some "administrator" /\
               u !! "loginTime" = Some utcnow) /\
  (~ (username request = "admin" /\ password request = "0000") ->
   admin_login utcnow request = Raise (HTTPException 401 "Invalid credentials")
   /\ http_status (admin_login utcnow request) = 401) /\
  (forall utcnow' request',
     ~ (username request = "admin" /\ password request = "0000") ->
     ~ (username request' = "admin" /\ password request' = "0000") ->
     admin_login utcnow request = admin_login utcnow' request').
Proof.
  assert (Hdec : forall t r,
            (username r = "admin" /\ password r = "0000" /\
             exists response, admin_login t r = Ok response /\
               success response = true /\
               exists u, user response = Some u /\
                         u !! "role" = Some "administrator" /\
                         u !! "loginTime" = Some t)
            \/ (~ (username r = "admin" /\ password r = "0000") /\
                admin_login t r
                = Raise (HTTPException 401 "Invalid credentials"))).
  { intros t r. unfold admin_login, ADMIN_USERNAME, ADMIN_PASSWORD.
    destruct (String.eqb_spec (username r) "admin") as [Hu|Hu];
      [destruct (String.eqb_spec (password r) "0000") as [Hp|Hp] |]; simpl.
    - left. repeat split; try assumption.
      eexists. split; [reflexivity |]. split; [reflexivity |].
      eexists. split; [reflexivity |]. split.
      + rewrite lookup_insert_ne by discriminate. apply lookup_insert_eq.
      + rewrite !lookup_insert_ne by discriminate. apply lookup_insert_eq.
    - right. split; [intros [_ Hp']; contradiction | reflexivity].
    - right. split; [intros [Hu' _]; contradiction | reflexivity]. }
  split; [split |]; [| | split; [| split]].
  - intros [response Hok]. destruct (Hdec utcnow request) as [[Hu [Hp _]]|[_ Hr]].
    + split; assumption.
    + rewrite Hr in Hok. discriminate Hok.
  - intros Hpair. destruct (Hdec utcnow request) as [[_ [_ [response [Hok _]]]]|[Hn _]].
    + exists response. exact Hok.
    + contradiction.
  - intros response Hok.
    destruct (Hdec utcnow request) as [[_ [_ [response' [Hok' Hrest]]]]|[_ Hr]].
    + rewrite Hok in Hok'. inversion Hok'; subst. exact Hrest.
    + rewrite Hr in Hok. discriminate Hok.
  - intros Hbad. destruct (Hdec utcnow request) as [[Hu [Hp _]]|[_ Hr]].
    + exfalso. apply Hbad. split; assumption.
    + rewrite Hr. split; reflexivity.
  - intros utcnow' request' Hbad Hbad'.
    destruct (Hdec utcnow request) as [[Hu [Hp _]]|[_ Hr]];
      [exfalso; apply Hbad; split; assumption |].
    destruct (Hdec utcnow' request') as [[Hu [Hp _]]|[_ Hr']];
      [exfalso; apply Hbad'; split; assumption |].
    rewrite Hr, Hr'. reflexivity.
Qed.

End AdminProperties.

(** * Properties of the settings router *)

Section SettingsProperties.
Import Settings.
Context `{Pydantic}.

(** [load_settings] never raises and never writes: it returns what the
    file holds, or the defaults. *)
Lemma load_settings_holds {E} (d : Disk) (value : json) :
  file d = Holds value -> @load_settings E d = (Ok value, d).
Proof.
  intros Hfile. destruct d as [f flt]. simpl in Hfile. subst f.
  reflexivity.
Qed.

Lemma load_settings_default {E} (d : Disk) :
  (forall value, file d <> Holds value) ->
  @load_settings E d = (Ok DEFAULT_SETTINGS, d).
Proof.
  intros Hfile. destruct d as [f flt]. simpl in Hfile.
  destruct f as [|err|err|value]; try reflexivity.
  exfalso. exact (Hfile value eq_refl).
Qed.

Lemma load_settings_pure {E} (d d' : Disk) (r : result E json) :
  @load_settings E d = (r, d') ->
  d' = d /\ exists value, r = Ok value /\
    (file d = Holds value \/
     (value = DEFAULT_SETTINGS /\ forall held, file d <> Holds held)).
Proof.
  destruct (file d) as [|err|err|held] eqn:Hf.
  1-3: rewrite load_settings_default by (rewrite Hf; discriminate);
       intros Heq; inversion Heq; subst; split; [reflexivity |];
       exists DEFAULT_SETTINGS; split; [reflexivity |]; right;
       split; [reflexivity | discriminate].
  rewrite (load_settings_holds _ _ Hf).
  intros Heq; inversion Heq; subst. split; [reflexivity |].
  exists held. split; [reflexivity | left; reflexivity].
Qed.

(** [save_settings], fault by fault. *)
Lemma save_settings_run {E} (data : json) (d : Disk) :
  @save_settings E data d =
  match fault d with
  | NoFault =>
      (Ok true, {| file := written (file d) (Holds data); fault := NoFault |})
  | MakedirsFails err => (Ok false, d)
  | OpenFails err => (Ok false, d)
  | DumpFails err =>
      (Ok false,
       {| file := written (file d)
                    (Garbled "Expecting value: line 1 column 1 (char 0)");
          fault := DumpFails err |})
  end.
Proof.
  unfold save_settings, bind, try_except, os_makedirs, open_w, json_dump, ret.
  destruct d as [f flt]. simpl. destruct flt; try reflexivity.
  destruct f; reflexivity.
Qed.

Lemma written_readable (before now : File) :
  (forall err, before <> Unreadable err) -> written before now = now.
Proof.
  intros Hread. destruct before as [|err|err|held]; try reflexivity.
  exfalso. exact (Hread err eq_refl).
Qed.

(** After a write a file that does not load still yields the defaults. *)
Lemma load_settings_written_garbled {E} (f : File) (flt : Fault) (err : string) :
  @load_settings E {| file := written f (Garbled err); fault := flt |} =
  (Ok DEFAULT_SETTINGS, {| file := written f (Garbled err); fault := flt |}).
Proof.
  apply load_settings_default. simpl.
  destruct f; simpl; intros held Hheld; discriminate Hheld.
Qed.

Lemma default_flag_lookup :
  default (JBool true)
    ((<["registration_open" := JBool true]> (∅ : gmap string json))
       !! "registration_open") = JBool true.
Proof. rewrite lookup_insert_eq. reflexivity. Qed.

(** Reading the flag from a loaded value that is a mapping. *)
Lemma get_settings_of_mapping (d : Disk) (m : gmap string json) :
  @load_settings exn d = (Ok (JObj m), d) ->
  get_settings d =
    try_except
      (new_SettingsResponse
         (default (JBool true) (m !! "registration_open")))
      (fun _ : exn => new_SettingsResponse (JBool true)) d.
Proof.
  intros Hload. unfold get_settings, try_except, bind.
  rewrite Hload. reflexivity.
Qed.

(** C5.  Neither settings read raises, whatever the file is, and neither
    touches it.  When the file is absent, cannot be read or is not JSON,
    and when it holds a mapping without [registration_open], both answer
    [registration_open = true]. *)
Theorem settings_reads_fail_soft (d : Disk) :
  (exists response, get_settings d = (Ok response, d)) /\
  (exists body, get_registration_status d = (Ok body, d)) /\
  (file d = Missing
   \/ (exists err, file d = Unreadable err)
   \/ (exists err, file d = Garbled err)
   \/ (exists m, file d = Holds (JObj m) /\ m !! "registration_open" = None) ->
   get_settings d = (Ok {| registration_open := true |}, d) /\
   get_registration_status d =
     (Ok (JObj (<["registration_open" := JBool true]> ∅)), d)).
Proof.
  split; [| split].
  - unfold get_settings, try_except, bind.
    destruct (@load_settings exn d) as [r d'] eqn:Hload.
    apply load_settings_pure in Hload as [-> [value [-> _]]].
    unfold dict_get, new_SettingsResponse, ret, raise.
    destruct value as [| b | n | repr | s | items | m]; try (eexists; reflexivity).
    destruct (default (JBool true) (m !! "registration_open"))
      as [| b | n | repr | s | items | m'];
      try (eexists; reflexivity);
      match goal with
      | |- context [coerce_bool ?v] => destruct (coerce_bool v)
      end; eexists; reflexivity.
  - unfold get_registration_status, try_except, bind.
    destruct (@load_settings exn d) as [r d'] eqn:Hload.
    apply load_settings_pure in Hload as [-> [value [-> _]]].
    unfold dict_get, ret, raise.
    destruct value; eexists; reflexivity.
  - intros Hfile.
    assert (Hload : exists m, @load_settings exn d = (Ok (JObj m), d) /\
                      default (JBool true) (m !! "registration_open")
                      = JBool true).
    { destruct Hfile as [Hf | [[err Hf] | [[err Hf] | [m [Hf Hm]]]]].
      1-3: eexists; split;
           [apply load_settings_default; rewrite Hf; discriminate
           | apply default_flag_lookup].
      exists m. split; [apply load_settings_holds; exact Hf |].
      rewrite Hm. reflexivity. }
    destruct Hload as [m [Hload Hflag]].
    split.
    + rewrite (get_settings_of_mapping _ _ Hload), Hflag. reflexivity.
    + unfold get_registration_status, try_except, bind.
      rewrite Hload. unfold dict_get, ret. rewrite Hflag. reflexivity.
Qed.

(** What [update_settings] does once [load_settings] has returned a
    mapping [m] and [m'] is [m] with the requested flag, if any, set. *)
Lemma update_settings_of_mapping (request : SettingsUpdateRequest)
    (d : Disk) (m : gmap string json) :
  @load_settings exn d = (Ok (JObj m), d) ->
  let m' := match requested_registration_open request with
            | Some b => <["registration_open" := JBool b]> m
            | None => m
            end in
  update_settings request d =
  match fault d with
  | NoFault =>
      match new_SettingsResponse
              (default (JBool true) (m' !! "registration_open"))
              {| file := written (file d) (Holds (JObj m'));
                 fault := NoFault |} with
      | (Ok response, d') => (Ok response, d')
      | (Raise (HTTPException code detail), d') =>
          (Raise (HTTPException code detail), d')
      | (Raise (Exception message), d') =>
          (Raise (HTTPException 500
                    ("Failed to update settings: " +:+ message)), d')
      end
  | MakedirsFails err | OpenFails err =>
      (Raise (HTTPException 500 "Failed to save settings"), d)
  | DumpFails err =>
      (Raise (HTTPException 500 "Failed to save settings"),
       {| file := written (file d)
                    (Garbled "Expecting value: line 1 column 1 (char 0)");
          fault := DumpFails err |})
  end.
Proof.
  intros Hload m'. unfold update_settings, try_except, bind at 1.
  rewrite Hload.
  assert (Hset : forall W,
            match requested_registration_open request with
            | Some b =>
                @dict_setitem W (JObj m) "registration_open" (JBool b)
            | None => ret (JObj m)
            end = ret (JObj m')).
  { intros W. unfold m'.
    destruct (requested_registration_open request); reflexivity. }
  rewrite Hset. unfold bind, ret. rewrite save_settings_run.
  destruct (fault d); try reflexivity.
  unfold dict_get, ret.
  destruct (new_SettingsResponse _ _) as [[response|[code detail|message]] d'];
    reflexivity.
Qed.

(** [new_SettingsResponse] leaves the disk alone. *)
Lemma new_SettingsResponse_disk (value : json) (d d' : Disk)
    (r : result exn SettingsResponse) :
  new_SettingsResponse value d = (r, d') -> d' = d.
Proof.
  unfold new_SettingsResponse, ret, raise.
  destruct value; try destruct (coerce_bool _);
    intros Heq; inversion Heq; reflexivity.
Qed.

(** An update that sets the flag returns only if the loaded value was a
    mapping and the save went through. *)
Lemma update_settings_set_returns (b : bool) (d d' : Disk)
    (response : SettingsResponse) :
  update_settings {| requested_registration_open := Some b |} d
  = (Ok response, d') ->
  exists m, @load_settings exn d = (Ok (JObj m), d) /\
            fault d = NoFault /\
            response = {| registration_open := b |} /\
            d' = {| file := written (file d)
                              (Holds (JObj (<["registration_open" := JBool b]> m)));
                    fault := NoFault |}.
Proof.
  intros Hupdate.
  destruct (@load_settings exn d) as [r d0] eqn:Hload.
  destruct (load_settings_pure _ _ _ Hload) as [-> [value [-> _]]].
  destruct value as [| b0 | n | repr | s | items | m];
    try (unfold update_settings, try_except, bind at 1 in Hupdate;
         rewrite Hload in Hupdate; simpl in Hupdate; discriminate Hupdate).
  exists m. split; [reflexivity |].
  rewrite (update_settings_of_mapping _ _ _ Hload) in Hupdate.
  simpl in Hupdate.
  destruct (fault d); try discriminate Hupdate.
  rewrite lookup_insert_eq in Hupdate. simpl in Hupdate.
  inversion Hupdate. repeat split; reflexivity.
Qed.


(** An update without the field, for whatever [load_settings] returned. *)
Lemma update_settings_without_field_run (d : Disk) (loaded : json) :
  @load_settings exn d = (Ok loaded, d) ->
  update_settings {| requested_registration_open := None |} d =
  match fault d with
  | NoFault =>
      match (value <- dict_get loaded "registration_open" (JBool true) ;;
             new_SettingsResponse value)
              {| file := written (file d) (Holds loaded);
                 fault := NoFault |} with
      | (Ok response, d') => (Ok response, d')
      | (Raise (HTTPException code detail), d') =>
          (Raise (HTTPException code detail), d')
      | (Raise (Exception message), d') =>
          (Raise (HTTPException 500
                    ("Failed to update settings: " +:+ message)), d')
      end
  | MakedirsFails err | OpenFails err =>
      (Raise (HTTPException 500 "Failed to save settings"), d)
  | DumpFails err =>
      (Raise (HTTPException 500 "Failed to save settings"),
       {| file := written (file d)
                    (Garbled "Expecting value: line 1 column 1 (char 0)");
          fault := DumpFails err |})
  end.
Proof.
  intros Hload. unfold update_settings, try_except, bind at 1.
  rewrite Hload. simpl. unfold bind at 1, ret at 1.
  unfold bind at 1. rewrite save_settings_run.
  destruct (fault d); try reflexivity.
  destruct ((value <- dict_get loaded "registration_open" (JBool true) ;;
             new_SettingsResponse value) _)
    as [[response|[code detail|message]] d']; reflexivity.
Qed.

(** Reading the flag out of the loaded value changes nothing on disk and
    raises no [HTTPException]. *)
Lemma read_flag_pure (loaded : json) (d d' : Disk)
    (r : result exn SettingsResponse) :
  (value <- dict_get loaded "registration_open" (JBool true) ;;
   new_SettingsResponse value) d = (r, d') ->
  d' = d /\ forall code detail, r <> Raise (HTTPException code detail).
Proof.
  unfold bind, dict_get, ret, raise.
  destruct loaded as [| b0 | n | repr | s | items | m];
    try (intros Heq; inversion Heq; split; [reflexivity | discriminate]).
  unfold new_SettingsResponse, ret, raise.
  destruct (default (JBool true) (m !! "registration_open"));
    try destruct (coerce_bool _);
    intros Heq; inversion Heq; split; (reflexivity || discriminate).
Qed.

(** What was loaded before a write that went through is what is loaded
    after it, when the write put back the value loaded. *)
Lemma load_settings_written_back (d : Disk) (loaded : json) (flt : Fault) :
  @load_settings exn d = (Ok loaded, d) ->
  @load_settings exn {| file := written (file d) (Holds loaded); fault := flt |}
  = (Ok loaded, {| file := written (file d) (Holds loaded); fault := flt |}).
Proof.
  intros Hload.
  destruct (load_settings_pure _ _ _ Hload) as [_ [value [Hok Hcases]]].
  inversion Hok; subst value.
  destruct (file d) as [|err|err|held] eqn:Hfile; simpl.
  - apply load_settings_holds. reflexivity.
  - destruct Hcases as [Hheld | [-> _]]; [discriminate Hheld |].
    apply load_settings_default. simpl. discriminate.
  - apply load_settings_holds. reflexivity.
  - apply load_settings_holds. reflexivity.
Qed.

(** C8, as amended.  Take an update without the field, on any disk, and
    let [loaded] be what [load_settings] returns.
    - If nothing fails in the save, the settings loaded afterwards are
      [loaded] again.  When [loaded] is a mapping whose
      [registration_open], read with its default, is a boolean [v], the
      update returns [v] and the next read returns [v]; in every other
      case the update either returns or raises a 500 "Failed to update
      settings: ...", the save having gone through.
    - If a step of the save fails, the update raises the 500 "Failed to
      save settings".  When the step is [makedirs] or [open], the disk is
      as it was; when it is [json.dump], the file, emptied by [open], no
      longer loads, and the reads answer [True] from then on. *)
Theorem update_settings_without_field (d : Disk) :
  let request := {| requested_registration_open := None |} in
  exists loaded,
    @load_settings exn d = (Ok loaded, d) /\
    (fault d = NoFault ->
     @load_settings exn (snd (update_settings request d)) =
       (Ok loaded, snd (update_settings request d)) /\
     (forall m v,
        loaded = JObj m ->
        default (JBool true) (m !! "registration_open") = JBool v ->
        fst (update_settings request d) = Ok {| registration_open := v |} /\
        get_settings (snd (update_settings request d)) =
          (Ok {| registration_open := v |}, snd (update_settings request d))) /\
     (forall e, fst (update_settings request d) = Raise e ->
                exists message,
                  e = HTTPException 500
                        ("Failed to update settings: " +:+ message))) /\
    (fault d <> NoFault ->
     fst (update_settings request d)
     = Raise (HTTPException 500 "Failed to save settings")) /\
    (forall err, fault d = MakedirsFails err \/ fault d = OpenFails err ->
     snd (update_settings request d) = d) /\
    (forall err, fault d = DumpFails err ->
     (forall held, file (snd (update_settings request d)) <> Holds held) /\
     get_settings (snd (update_settings request d)) =
       (Ok {| registration_open := true |}, snd (update_settings request d))).
Proof.
  intros request.
  destruct (@load_settings exn d) as [r d0] eqn:Hload.
  destruct (load_settings_pure _ _ _ Hload) as [-> [loaded [-> _]]].
  exists loaded. split; [reflexivity |].
  pose proof (update_settings_without_field_run d loaded Hload) as Hrun.
  fold request in Hrun.
  split; [| split; [| split]].
  - intros Hfault. rewrite Hfault in Hrun.
    set (d1 := {| file := written (file d) (Holds loaded);
                  fault := NoFault |}) in *.
    assert (Hload1 : @load_settings exn d1 = (Ok loaded, d1))
      by (apply load_settings_written_back; exact Hload).
    destruct ((value <- dict_get loaded "registration_open" (JBool true) ;;
               new_SettingsResponse value) d1) as [r d'] eqn:Hread.
    destruct (read_flag_pure _ _ _ _ Hread) as [-> Hno].
    assert (Hsnd : snd (update_settings request d) = d1).
    { rewrite Hrun. destruct r as [response|[code detail|message]];
        reflexivity. }
    rewrite Hsnd. split; [exact Hload1 |]. split.
    + intros m v -> Hflag. split.
      * rewrite Hrun. unfold bind, dict_get, ret in Hread.
        rewrite Hflag in Hread. simpl in Hread.
        inversion Hread. reflexivity.
      * rewrite (get_settings_of_mapping _ _ Hload1), Hflag. reflexivity.
    + intros e. rewrite Hrun.
      destruct r as [response|[code detail|message]]; simpl.
      * discriminate.
      * exfalso. exact (Hno code detail eq_refl).
      * intros Heq. inversion Heq. exists message. reflexivity.
  - intros Hfault. rewrite Hrun.
    destruct (fault d); [contradiction | | |]; reflexivity.
  - intros err [Hfault | Hfault]; rewrite Hrun, Hfault; reflexivity.
  - intros err Hfault. rewrite Hrun, Hfault. simpl. split.
    + destruct (file d); simpl; intros held Hheld; discriminate Hheld.
    + unfold get_settings, try_except, bind.
      rewrite load_settings_written_garbled. reflexivity.
Qed.

(** C10, as amended.  Let the loaded settings be a mapping [m].  What the
    update hands to the save is [m] with at most [registration_open] set:
    every other key has the value it had in [m], present or absent.
    - When nothing fails in the save and the file can be opened for
      reading, that mapping is what the file holds afterwards.
    - When [makedirs] or [open] fails, the disk is as it was.
    - When [json.dump] fails, the file has been emptied by [open]: it
      holds no value afterwards, so every key is gone.
    In each case a file that holds a value afterwards holds a mapping that
    agrees with [m] on every key but [registration_open]. *)
Theorem update_settings_keeps_other_keys (request : SettingsUpdateRequest)
    (d : Disk) (m : gmap string json) :
  @load_settings exn d = (Ok (JObj m), d) ->
  exists m' : gmap string json,
    m' = match requested_registration_open request with
         | Some b => <["registration_open" := JBool b]> m
         | None => m
         end /\
    (forall key, key <> "registration_open" -> m' !! key = m !! key) /\
    (fault d = NoFault -> (forall err, file d <> Unreadable err) ->
     file (snd (update_settings request d)) = Holds (JObj m')) /\
    (forall err, fault d = MakedirsFails err \/ fault d = OpenFails err ->
     snd (update_settings request d) = d) /\
    (forall err, fault d = DumpFails err ->
     forall held, file (snd (update_settings request d)) <> Holds held) /\
    (forall value,
       file (snd (update_settings request d)) = Holds value ->
       exists kept : gmap string json,
         value = JObj kept /\
         forall key, key <> "registration_open" -> kept !! key = m !! key).
Proof.
  intros Hload.
  pose proof (update_settings_of_mapping request d m Hload) as Hrun.
  simpl in Hrun.
  set (m' := match requested_registration_open request with
             | Some b => <["registration_open" := JBool b]> m
             | None => m
             end) in *.
  assert (Hkeys : forall key, key <> "registration_open" ->
                              m' !! key = m !! key).
  { intros key Hkey. unfold m'.
    destruct (requested_registration_open request) as [b|]; [| reflexivity].
    apply lookup_insert_ne. congruence. }
  assert (Hfile : forall (v0 : json) (d1 : Disk),
            snd
              (match new_SettingsResponse v0 d1 with
               | (Ok response, d') => (Ok response, d')
               | (Raise (HTTPException code detail), d') =>
                   (Raise (HTTPException code detail), d')
               | (Raise (Exception message), d') =>
                   (Raise (HTTPException 500
                             ("Failed to update settings: " +:+ message)), d')
               end : result exn SettingsResponse * Disk) = d1).
  { intros v0 d1.
    destruct (new_SettingsResponse v0 d1)
      as [[response|[code detail|message]] d'] eqn:Hnew;
      apply new_SettingsResponse_disk in Hnew; subst; reflexivity. }
  exists m'. split; [reflexivity |]. split; [exact Hkeys |].
  split; [| split; [| split]].
  - intros Hfault Hread. rewrite Hrun, Hfault, Hfile. simpl.
    apply written_readable. exact Hread.
  - intros err [Hfault | Hfault]; rewrite Hrun, Hfault; reflexivity.
  - intros err Hfault. rewrite Hrun, Hfault. simpl.
    destruct (file d); simpl; intros held Hheld; discriminate Hheld.
  - intros value. rewrite Hrun.
    assert (Hold : file d = Holds value ->
                   exists kept : gmap string json,
                     value = JObj kept /\
                     forall key, key <> "registration_open" ->
                                 kept !! key = m !! key).
    { intros Hheld.
      destruct (load_settings_pure _ _ _ Hload)
        as [_ [loaded [Hok [Hf | [_ Hf]]]]].
      - inversion Hok; subst. rewrite Hf in Hheld. inversion Hheld; subst.
        exists m. split; reflexivity.
      - exfalso. exact (Hf value Hheld). }
    destruct (fault d) eqn:Hfault.
    + rewrite Hfile. simpl. intros Hheld.
      destruct (file d) as [|err|err|held]; simpl in Hheld;
        try discriminate Hheld;
        inversion Hheld; subst; exists m'; split;
        [reflexivity | exact Hkeys | reflexivity | exact Hkeys
        | reflexivity | exact Hkeys].
    + simpl. exact Hold.
    + simpl. exact Hold.
    + simpl. intros Hheld.
      destruct (file d); simpl in Hheld; discriminate Hheld.
Qed.

End SettingsProperties.

(** * The properties at work on concrete runs *)

Section Runs.
Import Admin Settings Scripted.

(** A search error on the first call, with the retry going through, with
    the retry failing too, and an error that is not about search. *)
Lemma list_registrations_search_fallback_witness :
  (list_registrations 3 20 (Some "rov") (Some "pending")
     (start [Some "Search index missing"]) =
   (Ok {| data := [sample_document]; total := 1; page := 3; limit := 20 |},
    {| remote := [];
       trace :=
         [Returned Call_get_appwrite_client;
          Failed (Call_list_documents "chancity" "registrations"
                    [Query_equal "status" "pending";
                     Query_search "team_name" "rov";
                     Query_limit 20; Query_offset 40;
                     Query_order_desc "$createdAt"])
                 "Search index missing";
          Returned (Call_list_documents "chancity" "registrations"
                      [Query_limit 20; Query_offset 40])] |})) /\
  fst (list_registrations 3 20 (Some "rov") (Some "pending")
         (start [Some "Search index missing"; Some "Server Error"])) =
  Raise (HTTPException 500
           "Failed to list registrations: Search index missing") /\
  list_registrations 3 20 (Some "rov") (Some "pending")
    (start [Some "Server Error"; None]) =
  (Raise (HTTPException 500 "Failed to list registrations: Server Error"),
   {| remote := [None];
      trace :=
        [Returned Call_get_appwrite_client;
         Failed (Call_list_documents "chancity" "registrations"
                   [Query_equal "status" "pending";
                    Query_search "team_name" "rov";
                    Query_limit 20; Query_offset 40;
                    Query_order_desc "$createdAt"])
                "Server Error"] |}).
Proof.
  split; [| split].
  - destruct (@list_registrations_search_fallback Script appwrite
                3 20 (Some "rov") (Some "pending")
                (start [Some "Search index missing"])
                [Some "Search index missing"] [] []
                "Search index missing"
                (Ok {| dl_documents := Some [sample_document];
                       dl_total := Some 1 |})
                eq_refl eq_refl eq_refl) as [Hsearch _].
    destruct (Hsearch eq_refl) as [Hreturned _].
    exact (proj1 (Hreturned _ eq_refl)).
  - destruct (@list_registrations_search_fallback Script appwrite
                3 20 (Some "rov") (Some "pending")
                (start [Some "Search index missing"; Some "Server Error"])
                [Some "Search index missing"; Some "Server Error"]
                [Some "Server Error"] []
                "Search index missing" (Raise "Server Error")
                eq_refl eq_refl eq_refl) as [Hsearch _].
    destruct (Hsearch eq_refl) as [_ Hraised].
    exact (f_equal fst (Hraised _ eq_refl)).
  - destruct (@list_registrations_search_fallback Script appwrite
                3 20 (Some "rov") (Some "pending")
                (start [Some "Server Error"; None])
                [Some "Server Error"; None] [None] []
                "Server Error"
                (Ok {| dl_documents := Some [sample_document];
                       dl_total := Some 1 |})
                eq_refl eq_refl eq_refl) as [_ Hother].
    exact (Hother eq_refl).
Defined.

(** ["bogus"] is no status: no call traced carries an equality query, and
    the listing is that of a call without status. *)
Lemma list_registrations_ignores_unknown_status_witness :
  list_in "bogus" STATUSES = false /\
  (exists evs,
     trace (snd (list_registrations 1 10 (Some "rov") (Some "bogus")
                   (start [Some "Search index missing"])))
     = trace (start [Some "Search index missing"]) ++ evs /\
     forall ev database_id collection_id queries,
       In ev evs ->
       call_of ev = Call_list_documents database_id collection_id queries ->
       forall attribute value, ~ In (Query_equal attribute value) queries) /\
  filters (Some "rov") (Some "bogus") = [Query_search "team_name" "rov"] /\
  list_registrations 1 10 (Some "rov") (Some "bogus")
    (start [Some "Search index missing"]) =
  list_registrations 1 10 (Some "rov") None
    (start [Some "Search index missing"]).
Proof.
  split; [reflexivity |].
  destruct (@list_registrations_ignores_unknown_status Script appwrite
              1 10 (Some "rov") "bogus"
              (start [Some "Search index missing"]) eq_refl)
    as [Htrace [Hfilters [_ [Hsame _]]]].
  split; [exact Htrace |].
  split; [exact Hfilters | exact Hsame].
Defined.

(** ["bogus"] is refused with the script untouched and no call traced. *)
Lemma update_registration_status_rejects_first_witness :
  list_in "bogus" STATUSES = false /\
  update_registration_status "r1" "bogus" (start [Some "unreachable"]) =
  (Raise (HTTPException 400
            "Invalid status. Must be: pending, approved, or rejected"),
   {| remote := [Some "unreachable"]; trace := [] |}).
Proof.
  split; [reflexivity |].
  exact (@update_registration_status_rejects_first Script appwrite
           "r1" "bogus" (start [Some "unreachable"]) eq_refl).
Defined.

(** A missing document, and a store that is down, for the three handlers. *)
Lemma store_failure_is_404_or_500_witness :
  (fst (get_registration "r1" (start [Some "Document not found"])) =
   Raise (HTTPException 404 "Registration not found") /\
   fst (update_registration_status "r1" "approved"
          (start [Some "Document not found"])) =
   Raise (HTTPException 404 "Registration not found") /\
   fst (delete_registration "r1" (start [Some "Document not found"])) =
   Raise (HTTPException 404 "Registration not found")) /\
  (fst (get_registration "r1" (start [Some "Connection refused"])) =
   Raise (HTTPException 500
            "Failed to get registration: Connection refused") /\
   fst (update_registration_status "r1" "approved"
          (start [Some "Connection refused"])) =
   Raise (HTTPException 500
            "Failed to update registration: Connection refused") /\
   fst (delete_registration "r1" (start [Some "Connection refused"])) =
   Raise (HTTPException 500
            "Failed to delete registration: Connection refused")).
Proof.
  split.
  - destruct (@store_failure_is_404_or_500 Script appwrite
                "r1" "approved" "Document not found"
                (start [Some "Document not found"]) eq_refl)
      as [Hget [Hupdate [Hdelete _]]].
    split; [| split].
    + exact (Hget _ _ eq_refl eq_refl).
    + exact (Hupdate _ _ eq_refl eq_refl).
    + exact (Hdelete _ _ eq_refl eq_refl).
  - destruct (@store_failure_is_404_or_500 Script appwrite
                "r1" "approved" "Connection refused"
                (start [Some "Connection refused"]) eq_refl)
      as [Hget [Hupdate [Hdelete _]]].
    split; [| split].
    + exact (Hget _ _ eq_refl eq_refl).
    + exact (Hupdate _ _ eq_refl eq_refl).
    + exact (Hdelete _ _ eq_refl eq_refl).
Defined.

(** The third count query fails after two have returned 1: all zeros. *)
Example get_stats_third_query_fails :
  fst (get_stats (start [None; None; Some "Server Error"])) =
  Ok {| stats_total := 0; stats_pending := 0;
        stats_approved := 0; stats_rejected := 0 |}.
Proof. reflexivity. Qed.

Example get_stats_all_queries_return :
  fst (get_stats (start [])) =
  Ok {| stats_total := 1; stats_pending := 1;
        stats_approved := 1; stats_rejected := 1 |}.
Proof. reflexivity. Qed.

Example admin_login_admin :
  http_status
    (admin_login "2023-11-04T10:00:00"
       {| username := "admin"; password := "0000" |}) = 200.
Proof. reflexivity. Qed.

Example admin_login_wrong_password :
  admin_login "2023-11-04T10:00:00"
    {| username := "admin"; password := "0001" |} =
  admin_login "2023-11-05T08:30:00"
    {| username := "root"; password := "0000" |}.
Proof. reflexivity. Qed.

(** A file that is not JSON reads as open; so does one that holds a list. *)
Example get_settings_garbled_file :
  fst (get_settings {| file := Garbled "Expecting value"; fault := NoFault |})
  = Ok {| registration_open := true |}.
Proof. reflexivity. Qed.

Example get_settings_list_file :
  fst (get_settings {| file := Holds (JArr []); fault := NoFault |})
  = Ok {| registration_open := true |}.
Proof. reflexivity. Qed.



(** An update without the field on a closed registration: the answer is
    [false] and the file is as it was; with the directory read-only the
    answer is the 500. *)
Lemma update_settings_without_field_witness :
  update_settings {| requested_registration_open := None |}
    {| file := Holds (JObj (<["registration_open" := JBool false]> ∅));
       fault := NoFault |} =
  (Ok {| registration_open := false |},
   {| file := Holds (JObj (<["registration_open" := JBool false]> ∅));
      fault := NoFault |}) /\
  fst (update_settings {| requested_registration_open := None |}
         {| file := Holds (JObj (<["registration_open" := JBool false]> ∅));
            fault := OpenFails "[Errno 13] Permission denied" |}) =
  Raise (HTTPException 500 "Failed to save settings").
Proof.
  assert (Hflag : default (JBool true)
                    ((<["registration_open" := JBool false]>
                        (∅ : gmap string json)) !! "registration_open")
                  = JBool false)
    by (vm_compute; reflexivity).
  split.
  - destruct (@update_settings_without_field lax
                {| file := Holds (JObj (<["registration_open" := JBool false]> ∅));
                   fault := NoFault |})
      as [loaded [Hload [Hsaved _]]].
    vm_compute in Hload. inversion Hload as [Hloaded]. clear Hload.
    destruct (Hsaved eq_refl) as [_ [Hflagged _]].
    destruct (Hflagged (<["registration_open" := JBool false]> ∅) false
                (eq_sym Hloaded) Hflag) as [Hanswer _].
    apply injective_projections; [exact Hanswer | vm_compute; reflexivity].
  - destruct (@update_settings_without_field lax
                {| file := Holds (JObj (<["registration_open" := JBool false]> ∅));
                   fault := OpenFails "[Errno 13] Permission denied" |})
      as [loaded [_ [_ [Hfailed _]]]].
    refine (Hfailed _). discriminate.
Defined.

(** C8 as first stated fails in two ways.  Registration is closed and the
    disk fills up during an update without the field: the update raises
    the 500 and the stored [False] is gone, the next read answers [True].
    And on a file that holds a list the save goes through, the file is as
    it was, and the answer is a 500 all the same. *)
Lemma update_settings_without_field_loses_flag :
  (fst (get_settings
          {| file := Holds (JObj (<["registration_open" := JBool false]> ∅));
             fault := DumpFails "[Errno 28] No space left on device" |})
   = Ok {| registration_open := false |} /\
   update_settings {| requested_registration_open := None |}
     {| file := Holds (JObj (<["registration_open" := JBool false]> ∅));
        fault := DumpFails "[Errno 28] No space left on device" |} =
   (Raise (HTTPException 500 "Failed to save settings"),
    {| file := Garbled "Expecting value: line 1 column 1 (char 0)";
       fault := DumpFails "[Errno 28] No space left on device" |}) /\
   fst (get_settings
          {| file := Garbled "Expecting value: line 1 column 1 (char 0)";
             fault := DumpFails "[Errno 28] No space left on device" |})
   = Ok {| registration_open := true |}) /\
  update_settings {| requested_registration_open := None |}
    {| file := Holds (JArr []); fault := NoFault |} =
  (Raise (HTTPException 500
            "Failed to update settings: 'list' object has no attribute 'get'"),
   {| file := Holds (JArr []); fault := NoFault |}).
Proof. repeat split; vm_compute; reflexivity. Qed.

(** A key the service knows nothing about survives an update. *)
Lemma update_settings_keeps_other_keys_witness :
  exists kept : gmap string json,
    file (snd (update_settings {| requested_registration_open := Some false |}
                 {| file := Holds (JObj (<["banner" := JStr "Cup 2024"]>
                                         (<["registration_open" := JBool true]> ∅)));
                    fault := NoFault |})) = Holds (JObj kept) /\
    kept !! "banner" = Some (JStr "Cup 2024").
Proof.
  destruct (@update_settings_keeps_other_keys lax
              {| requested_registration_open := Some false |}
              {| file := Holds (JObj (<["banner" := JStr "Cup 2024"]>
                                      (<["registration_open" := JBool true]> ∅)));
                 fault := NoFault |}
              (<["banner" := JStr "Cup 2024"]>
               (<["registration_open" := JBool true]> ∅))
              eq_refl) as [kept [_ [Hkeys [Hfile _]]]].
  exists kept. split.
  - refine (Hfile eq_refl _). intros err Heq. discriminate Heq.
  - rewrite (Hkeys "banner") by discriminate. vm_compute. reflexivity.
Defined.

(** C10 as first stated fails when the disk fills up during the save: the
    file held a [banner] before the update and holds nothing after it. *)
Lemma update_settings_failed_dump_loses_keys :
  (<["banner" := JStr "Cup 2024"]>
     (<["registration_open" := JBool true]> (∅ : gmap string json)))
    !! "banner" = Some (JStr "Cup 2024") /\
  update_settings {| requested_registration_open := Some false |}
    {| file := Holds (JObj (<["banner" := JStr "Cup 2024"]>
                            (<["registration_open" := JBool true]> ∅)));
       fault := DumpFails "[Errno 28] No space left on device" |} =
  (Raise (HTTPException 500 "Failed to save settings"),
   {| file := Garbled "Expecting value: line 1 column 1 (char 0)";
      fault := DumpFails "[Errno 28] No space left on device" |}).
Proof. repeat split; vm_compute; reflexivity. Qed.

End Runs.

(** * The message tests as substring tests *)

Section Messages.

Lemma prefix_spec (sub s : string) :
  String.prefix sub s = true <-> exists post, s = sub +:+ post.
Proof.
  revert s. induction sub as [|c sub IH]; intros s.
  - split; [intros _; exists s; reflexivity | intros _; destruct s; reflexivity].
  - destruct s as [|c' s]; simpl.
    + split; [discriminate | intros [post Hpost]; discriminate Hpost].
    + destruct (Ascii.ascii_dec c c') as [->|Hne].
      * rewrite IH. split; intros [post Hpost]; exists post.
        -- rewrite Hpost. reflexivity.
        -- inversion Hpost. reflexivity.
      * split; [discriminate |].
        intros [post Hpost]. inversion Hpost. congruence.
Qed.

Lemma str_in_spec (sub s : string) :
  str_in sub s = true <-> exists pre post, s = pre +:+ sub +:+ post.
Proof.
  split.
  - induction s as [|c s IH].
    + destruct sub as [|c sub]; simpl; [| discriminate].
      intros _. exists "", "". reflexivity.
    + change (str_in sub (String c s))
        with (if String.prefix sub (String c s) then true else str_in sub s).
      destruct (String.prefix sub (String c s)) eqn:Hp.
      * intros _. apply prefix_spec in Hp as [post Hpost].
        exists "", post. exact Hpost.
      * intros Hin. destruct (IH Hin) as [pre [post Hs]].
        exists (String c pre), post. rewrite Hs. reflexivity.
  - intros [pre [post Hs]]. subst s.
    induction pre as [|c pre IH].
    + assert (Hp : String.prefix sub (sub +:+ post) = true)
        by (apply prefix_spec; exists post; reflexivity).
      change (str_in sub ("" +:+ sub +:+ post))
        with (str_in sub (sub +:+ post)).
      destruct (sub +:+ post) as [|c rest];
        [change (str_in sub "") with (if String.prefix sub "" then true else false)
        |change (str_in sub (String c rest))
           with (if String.prefix sub (String c rest)
                 then true else str_in sub rest)];
        rewrite Hp; reflexivity.
    + change (str_in sub (String c pre +:+ sub +:+ post))
        with (if String.prefix sub (String c (pre +:+ sub +:+ post))
              then true else str_in sub (pre +:+ sub +:+ post)).
      rewrite IH.
      destruct (String.prefix sub (String c (pre +:+ sub +:+ post)));
        reflexivity.
Qed.

Lemma lower_app (a b : string) : lower (a +:+ b) = lower a +:+ lower b.
Proof. induction a as [|c a IH]; simpl; [| rewrite IH]; reflexivity. Qed.

Lemma lower_split (s a b : string) :
  lower s = a +:+ b ->
  exists a' b', s = a' +:+ b' /\ lower a' = a /\ lower b' = b.
Proof.
  revert s. induction a as [|c a IH]; intros s Hs.
  - exists "", s. repeat split. exact Hs.
  - destruct s as [|c' s]; simpl in Hs; [discriminate Hs |].
    inversion Hs as [[Hc Hrest]].
    destruct (IH s Hrest) as [a' [b' [-> [Ha Hb]]]].
    exists (String c' a'), b'. simpl. rewrite Ha. repeat split. exact Hb.
Qed.

(** [needle in s.lower()] holds exactly when [s] has a piece that
    lower-cases to [needle]. *)
Lemma str_in_lower_spec (needle s : string) :
  str_in needle (lower s) = true <->
  exists pre mid post, s = pre +:+ mid +:+ post /\ lower mid = needle.
Proof.
  rewrite str_in_spec. split.
  - intros [pre [post Hs]].
    destruct (lower_split _ _ _ Hs) as [pre' [rest [-> [_ Hrest]]]].
    destruct (lower_split _ _ _ Hrest) as [mid [post' [-> [Hmid _]]]].
    exists pre', mid, post'. split; [reflexivity | exact Hmid].
  - intros [pre [mid [post [-> Hmid]]]].
    exists (lower pre), (lower post). rewrite !lower_app, Hmid. reflexivity.
Qed.

(** X1.  The two tests the admin router runs on a failure message.  A
    message counts as "not found" exactly when it contains ["404"] or has a
    piece that reads ["not found"] in whatever letter case; it counts as a
    search error exactly when it has a piece that reads ["search"] in
    whatever letter case. *)
Theorem message_tests_are_substring_tests (e : string) :
  (Admin.not_found e = true <->
   (exists pre post, e = pre +:+ "404" +:+ post) \/
   (exists pre mid post,
      e = pre +:+ mid +:+ post /\ lower mid = "not found")) /\
  (str_in "search" (lower e) = true <->
   exists pre mid post, e = pre +:+ mid +:+ post /\ lower mid = "search").
Proof.
  split.
  - unfold Admin.not_found. rewrite orb_true_iff, str_in_spec, str_in_lower_spec.
    reflexivity.
  - apply str_in_lower_spec.
Qed.

End Messages.

(** * Further properties of the admin router *)

Section AdminFurther.
Import Admin.
Context {Remote : Type} `{!Appwrite Remote}.

(** Case analysis on the next call in the goal, with what it adds to the
    trace. *)
Ltac next_call :=
  match goal with
  | |- context [perform ?c ?f ?w0] =>
      let r := fresh "r" in
      let w1 := fresh "w" in
      let Hp := fresh "Hp" in
      destruct (perform c f w0) as [[r|r] w1] eqn:Hp;
      [apply perform_returned in Hp | apply perform_raised in Hp]
  end.

Ltac rewrite_traces :=
  repeat match goal with
         | H : trace ?w1 = _ |- context [trace ?w1] => rewrite H; clear H
         end;
  rewrite <- ?app_assoc.

(** X2.  When the client is built and the first [list_documents] call
    returns, [list_registrations] makes that one call only.  Its queries
    are the filters followed by the limit, the offset [(page - 1) * limit]
    and the descending order on [$createdAt]; the answer carries the
    documents and the total of the response, [[]] and [0] standing in for
    a key the response lacks, with the page and the limit of the request. *)
Theorem list_registrations_first_call_returns (page limit : Z)
    (search status : option string) (w : World Remote) (r1 r2 : Remote)
    (response : DocumentList) :
  get_appwrite_client (remote w) = (Ok tt, r1) ->
  list_documents appwrite_database_id appwrite_collection_id
    (filters search status ++
     [Query_limit limit; Query_offset ((page - 1) * limit);
      Query_order_desc "$createdAt"]) r1 = (Ok response, r2) ->
  list_registrations page limit search status w =
    (Ok {| data := match dl_documents response with
                   | Some documents => documents
                   | None => []
                   end;
           total := match dl_total response with
                    | Some n => n
                    | None => 0
                    end;
           page := page;
           limit := limit |},
     {| remote := r2;
        trace := trace w ++
          [Returned Call_get_appwrite_client;
           Returned
             (Call_list_documents appwrite_database_id appwrite_collection_id
                (filters search status ++
                 [Query_limit limit; Query_offset ((page - 1) * limit);
                  Query_order_desc "$createdAt"]))] |}).
Proof.
  intros Hclient Hfirst.
  unfold list_registrations, client.
  rewrite (perform_run _ _ _ _ _ Hclient). simpl.
  unfold try_except, bind, databases_list_documents.
  erewrite perform_run by (simpl; exact Hfirst). simpl.
  rewrite <- app_assoc. unfold listing.
  destruct (dl_documents response), (dl_total response); reflexivity.
Qed.

(** X3.  What [list_registrations] filters on: an equality on [status] for
    a status that is one of the three values, a search on [team_name] for a
    search string that is not empty, and nothing else; the status filter
    comes first. *)
Theorem filters_spec (search status : option string) :
  (forall q,
     In q (filters search status) <->
     (exists s, status = Some s /\ In s STATUSES /\ q = Query_equal "status" s)
     \/ (exists s, search = Some s /\ s <> "" /\
                   q = Query_search "team_name" s)) /\
  (forall s t, status = Some s -> In s STATUSES ->
               search = Some t -> t <> "" ->
               filters search status =
                 [Query_equal "status" s; Query_search "team_name" t]).
Proof.
  assert (Htruthy : forall s, truthy (Some s) = true <-> s <> "").
  { intros [|c s]; simpl; split; congruence. }
  assert (Hstatus : forall q,
            In q (match status with
                  | Some s =>
                      if (truthy status && list_in s STATUSES)%bool
                      then [Query_equal "status" s] else []
                  | None => []
                  end) <->
            exists s, status = Some s /\ In s STATUSES /\
                      q = Query_equal "status" s).
  { intros q. destruct status as [s|].
    - destruct (list_in s STATUSES) eqn:Hin.
      + assert (Hs : In s STATUSES) by (apply list_in_spec; exact Hin).
        assert (Ht : truthy (Some s) = true).
        { apply Htruthy. intros ->. simpl in Hs.
          destruct Hs as [Hs|[Hs|[Hs|[]]]]; discriminate Hs. }
        rewrite Ht. simpl. split.
        * intros [<-|[]]. exists s. auto.
        * intros [s' [Heq [_ ->]]]. inversion Heq. left. reflexivity.
      + rewrite andb_false_r. simpl. split; [intros [] |].
        intros [s' [Heq [Hs _]]]. inversion Heq; subst.
        apply (proj2 (list_in_spec s' STATUSES)) in Hs. congruence.
    - simpl. split; [intros [] | intros [s [Heq _]]; discriminate Heq]. }
  assert (Hsearch : forall q,
            In q (match search with
                  | Some s =>
                      if truthy search then [Query_search "team_name" s]
                      else []
                  | None => []
                  end) <->
            exists s, search = Some s /\ s <> "" /\
                      q = Query_search "team_name" s).
  { intros q. destruct search as [s|].
    - destruct (truthy (Some s)) eqn:Ht; simpl.
      + split.
        * intros [<-|[]]. exists s. split; [reflexivity |].
          split; [apply Htruthy; exact Ht | reflexivity].
        * intros [s' [Heq [_ ->]]]. inversion Heq. left. reflexivity.
      + split; [intros [] |].
        intros [s' [Heq [Hs _]]]. inversion Heq; subst.
        apply Htruthy in Hs. congruence.
    - simpl. split; [intros [] | intros [s [Heq _]]; discriminate Heq]. }
  split.
  - intros q. unfold filters. rewrite in_app_iff, Hstatus, Hsearch.
    reflexivity.
  - intros s t -> Hs -> Ht. unfold filters.
    apply list_in_spec in Hs. rewrite Hs, andb_true_r.
    assert (Hts : truthy (Some s) = true).
    { destruct s; [discriminate Hs | reflexivity]. }
    apply Htruthy in Ht. rewrite Hts, Ht. reflexivity.
Qed.

(** X4.  When [get_appwrite_client()] itself raises with message [e], no
    handler sends anything to the store: the failed construction is the
    only event.  [list_registrations] raises the 500 that carries [e],
    also when [e] speaks of search, since the fallback has no client to
    call; [get], [update] (valid status) and [delete] answer 404 or 500 by
    the same test on [e] as for a store failure; [get_stats] returns
    zeros. *)
Theorem client_failure_makes_no_store_call (e : string) (w : World Remote)
    (r1 : Remote) (page limit : Z) (search status : option string)
    (registration_id new_status : string) :
  get_appwrite_client (remote w) = (Raise e, r1) ->
  list_in new_status STATUSES = true ->
  let w1 := {| remote := r1;
               trace := trace w ++ [Failed Call_get_appwrite_client e] |} in
  let answer what :=
    if not_found e
    then HTTPException 404 "Registration not found"
    else HTTPException 500 (what +:+ e) in
  list_registrations page limit search status w =
    (Raise (HTTPException 500 ("Failed to list registrations: " +:+ e)), w1) /\
  get_registration registration_id w =
    (Raise (answer "Failed to get registration: "), w1) /\
  update_registration_status registration_id new_status w =
    (Raise (answer "Failed to update registration: "), w1) /\
  delete_registration registration_id w =
    (Raise (answer "Failed to delete registration: "), w1) /\
  get_stats w =
    (Ok {| stats_total := 0; stats_pending := 0;
           stats_approved := 0; stats_rejected := 0 |}, w1).
Proof.
  intros Hclient Hvalid w1 answer.
  assert (Hc : client w = (Raise e, w1)).
  { unfold client. apply (perform_run _ _ _ _ _ Hclient). }
  repeat split.
  - unfold list_registrations. rewrite Hc.
    unfold list_registrations_except, bind, try_except, ret, raise.
    destruct (str_in "search" (lower e)); reflexivity.
  - unfold get_registration, try_except, bind. rewrite Hc.
    unfold answer. destruct (not_found e); reflexivity.
  - unfold update_registration_status. rewrite Hvalid. simpl.
    unfold try_except, bind. rewrite Hc.
    unfold answer. destruct (not_found e); reflexivity.
  - unfold delete_registration, try_except, bind. rewrite Hc.
    unfold answer. destruct (not_found e); reflexivity.
  - unfold get_stats, try_except, bind. rewrite Hc. reflexivity.
Qed.


(** X6.  With a valid status, a client that is built and an
    [update_document] call that returns, [update_registration_status]
    makes that one call, whose data is the single entry [status], and
    answers with [success], the message "Status updated to " followed by
    the status, and the document as the store returned it. *)
Theorem update_registration_status_returns (registration_id status : string)
    (w : World Remote) (r1 r2 : Remote) (response : json) :
  list_in status STATUSES = true ->
  get_appwrite_client (remote w) = (Ok tt, r1) ->
  update_document appwrite_database_id appwrite_collection_id
    registration_id (<["status" := JStr status]> ∅) r1 = (Ok response, r2) ->
  update_registration_status registration_id status w =
    (Ok {| su_success := true;
           su_message := "Status updated to " +:+ status;
           su_data := response |},
     {| remote := r2;
        trace := trace w ++
          [Returned Call_get_appwrite_client;
           Returned
             (Call_update_document appwrite_database_id
                appwrite_collection_id registration_id
                (<["status" := JStr status]> ∅))] |}) /\
  forall key value,
    (<["status" := JStr status]> (∅ : gmap string json)) !! key = Some value ->
    key = "status" /\ value = JStr status.
Proof.
  intros Hvalid Hclient Hupdate. split.
  - unfold update_registration_status. rewrite Hvalid. simpl.
    unfold try_except, bind, client, databases_update_document.
    rewrite (perform_run _ _ _ _ _ Hclient). simpl.
    erewrite perform_run by (simpl; exact Hupdate). simpl.
    rewrite <- app_assoc. reflexivity.
  - intros key value Hlookup.
    destruct (decide (key = "status")) as [->|Hne].
    + rewrite lookup_insert_eq in Hlookup. inversion Hlookup. auto.
    + rewrite lookup_insert_ne, lookup_empty in Hlookup by congruence.
      discriminate Hlookup.
Qed.

(** X7.  [update_registration_status] answers 400 exactly for a status
    that is not one of the three values: with a valid status no answer of
    the store, and no failure of it, produces a 400. *)
Theorem update_registration_status_400_iff (registration_id status : string)
    (w : World Remote) :
  http_status (fst (update_registration_status registration_id status w)) = 400
  <-> ~ In status STATUSES.
Proof.
  rewrite <- list_in_spec.
  unfold update_registration_status.
  destruct (list_in status STATUSES); simpl.
  - split; [| intros Hno; exfalso; apply Hno; reflexivity].
    unfold try_except, bind, ret, raise, client, databases_update_document.
    repeat first [next_call | destruct (not_found _)]; simpl; discriminate.
  - split; [intros _; discriminate | reflexivity].
Qed.

(** X8.  With a client that is built: [get_registration] returns the
    document exactly as [get_document] returned it, and
    [delete_registration], once [delete_document] has returned, answers
    with [success] and its fixed message.  Each makes that one call, for
    the id it was given. *)
Theorem get_and_delete_pass_through (registration_id : string)
    (w : World Remote) (r1 : Remote) :
  get_appwrite_client (remote w) = (Ok tt, r1) ->
  (forall r2 document,
     get_document appwrite_database_id appwrite_collection_id
       registration_id r1 = (Ok document, r2) ->
     get_registration registration_id w =
       (Ok document,
        {| remote := r2;
           trace := trace w ++
             [Returned Call_get_appwrite_client;
              Returned (Call_get_document appwrite_database_id
                          appwrite_collection_id registration_id)] |})) /\
  (forall r2,
     delete_document appwrite_database_id appwrite_collection_id
       registration_id r1 = (Ok tt, r2) ->
     delete_registration registration_id w =
       (Ok {| del_success := true;
              del_message := "Registration deleted successfully" |},
        {| remote := r2;
           trace := trace w ++
             [Returned Call_get_appwrite_client;
              Returned (Call_delete_document appwrite_database_id
                          appwrite_collection_id registration_id)] |})).
Proof.
  intros Hclient. split.
  - intros r2 document Hget.
    unfold get_registration, try_except, bind, client, databases_get_document.
    rewrite (perform_run _ _ _ _ _ Hclient). simpl.
    erewrite perform_run by (simpl; exact Hget). simpl.
    rewrite <- app_assoc. reflexivity.
  - intros r2 Hdelete.
    unfold delete_registration, try_except, bind, client,
      databases_delete_document.
    rewrite (perform_run _ _ _ _ _ Hclient). simpl.
    erewrite perform_run by (simpl; exact Hdelete). simpl.
    rewrite <- app_assoc. reflexivity.
Qed.

(** X9.  When the client is built and the four count queries return,
    [get_stats] reports the [total] of each response, in the order total,
    pending, approved, rejected, with 0 for a response without [total]. *)
Theorem get_stats_reports_totals (w : World Remote) (r1 r2 r3 r4 r5 : Remote)
    (all pending approved rejected : DocumentList) :
  get_appwrite_client (remote w) = (Ok tt, r1) ->
  list_documents appwrite_database_id appwrite_collection_id
    [Query_limit 1] r1 = (Ok all, r2) ->
  list_documents appwrite_database_id appwrite_collection_id
    [Query_equal "status" "pending"; Query_limit 1] r2 = (Ok pending, r3) ->
  list_documents appwrite_database_id appwrite_collection_id
    [Query_equal "status" "approved"; Query_limit 1] r3 = (Ok approved, r4) ->
  list_documents appwrite_database_id appwrite_collection_id
    [Query_equal "status" "rejected"; Query_limit 1] r4 = (Ok rejected, r5) ->
  get_stats w =
    (Ok {| stats_total := default 0 (dl_total all);
           stats_pending := default 0 (dl_total pending);
           stats_approved := default 0 (dl_total approved);
           stats_rejected := default 0 (dl_total rejected) |},
     {| remote := r5; trace := trace w ++ map Returned stats_calls |}).
Proof.
  intros Hclient Hall Hpending Happroved Hrejected.
  unfold get_stats, try_except, bind, client, databases_list_documents.
  rewrite (perform_run _ _ _ _ _ Hclient). simpl.
  erewrite perform_run by (simpl; exact Hall). simpl.
  erewrite perform_run by (simpl; exact Hpending). simpl.
  erewrite perform_run by (simpl; exact Happroved). simpl.
  erewrite perform_run by (simpl; exact Hrejected). simpl.
  rewrite <- !app_assoc. reflexivity.
Qed.

(** X10.  [get_stats] works through its five calls in order and stops at
    the first that fails: the calls it made are an initial part of
    [stats_calls], only the last of them can have failed, and if none
    failed all five were made. *)
Theorem get_stats_stops_at_first_failure (w : World Remote) :
  exists evs,
    trace (snd (get_stats w)) = trace w ++ evs /\
    map call_of evs = take (length evs) stats_calls /\
    existsb is_failed (removelast evs) = false /\
    (existsb is_failed evs = false -> length evs = 5%nat).
Proof.
  unfold get_stats, try_except, bind, ret, client, databases_list_documents.
  repeat next_call;
    simpl; eexists; (split; [rewrite_traces; reflexivity |]);
    simpl; repeat split; first [reflexivity | discriminate].
Qed.

End AdminFurther.

(** * Further properties of the settings router *)

Section SettingsFurther.
Import Settings.
Context `{Pydantic}.

(** X11.  [load_settings] never raises and never touches the disk.  It
    returns what the file holds when the file loads, and the defaults
    ([registration_open] true) when the file is absent, cannot be read or
    is not JSON. *)
Theorem load_settings_spec {E} (d : Disk) :
  exists value,
    @load_settings E d = (Ok value, d) /\
    (forall held, file d = Holds held -> value = held) /\
    (file d = Missing \/ (exists err, file d = Unreadable err)
     \/ (exists err, file d = Garbled err) ->
     value = JObj (<["registration_open" := JBool true]> ∅)).
Proof.
  destruct d as [f flt]. destruct f as [|err|err|held]; simpl.
  1-3: exists DEFAULT_SETTINGS; split; [reflexivity |];
       split; [intros held Hheld; discriminate Hheld | reflexivity].
  exists held. split; [reflexivity |]. split.
  - intros held' Hheld. inversion Hheld. reflexivity.
  - intros [Hf | [[err Hf] | [err Hf]]]; discriminate Hf.
Qed.

(** X12.  [save_settings] never raises: it returns [True] exactly when no
    step fails, and then a file that can be opened for reading holds the
    data it was given.  A failure of [makedirs] or of [open] leaves the
    disk as it was; a failure of [json.dump], which comes after [open] has
    emptied the file, leaves a file that no longer loads.  A file that
    cannot be opened for reading stays so, whatever is written to it. *)
Theorem save_settings_spec {E} (data : json) (d : Disk) :
  exists saved d',
    @save_settings E data d = (Ok saved, d') /\
    fault d' = fault d /\
    (saved = true <-> fault d = NoFault) /\
    (saved = true -> (forall err, file d <> Unreadable err) ->
     file d' = Holds data) /\
    (forall err, file d = Unreadable err -> file d' = Unreadable err) /\
    (forall err, fault d = MakedirsFails err \/ fault d = OpenFails err ->
                 d' = d) /\
    (forall err, fault d = DumpFails err -> forall held, file d' <> Holds held).
Proof.
  rewrite save_settings_run. destruct d as [f flt].
  destruct flt as [|err0|err0|err0]; simpl; eexists _, _;
    (split; [reflexivity |]); (split; [reflexivity |]);
    (split; [split; congruence |]);
    (split;
     [first [discriminate
            | intros _ Hread; apply written_readable; exact Hread] |]);
    (split; [intros err ->; reflexivity |]);
    (split; [intros err [Hf|Hf]; first [discriminate Hf | reflexivity] |]);
    intros err Hf; first [discriminate Hf | idtac];
    destruct f; simpl; intros held Hheld; discriminate Hheld.
Qed.

(** X13.  Reading a flag that is stored.  The public read returns the
    value under [registration_open] as it is, whatever JSON it is.  The
    admin read returns a stored boolean as it is; for any other value it
    returns what pydantic makes of it, and [True] when pydantic rejects
    it.  Neither read touches the file. *)
Theorem reads_of_stored_value (d : Disk) (m : gmap string json) (v : json) :
  file d = Holds (JObj m) ->
  m !! "registration_open" = Some v ->
  get_registration_status d =
    (Ok (JObj (<["registration_open" := v]> ∅)), d) /\
  (forall b, v = JBool b ->
             get_settings d = (Ok {| registration_open := b |}, d)) /\
  ((forall b, v <> JBool b) ->
   get_settings d =
     (Ok {| registration_open := default true (coerce_bool v) |}, d)).
Proof.
  intros Hfile Hflag.
  assert (Hload : @load_settings exn d = (Ok (JObj m), d))
    by (apply load_settings_holds; exact Hfile).
  split; [| split].
  - unfold get_registration_status, try_except, bind. rewrite Hload.
    unfold dict_get, ret. rewrite Hflag. reflexivity.
  - intros b ->. rewrite (get_settings_of_mapping _ _ Hload), Hflag.
    reflexivity.
  - intros Hnot. rewrite (get_settings_of_mapping _ _ Hload), Hflag.
    unfold try_except, new_SettingsResponse, ret, raise. simpl.
    destruct v as [| b | n | repr | s | items | fields];
      try (destruct (coerce_bool _); reflexivity).
    exfalso. exact (Hnot b eq_refl).
Qed.

(** X14.  A save that breaks inside [json.dump] fails open.  The update
    raises the 500 "Failed to save settings", and the file, emptied by
    [open], no longer loads: both reads answer [True] from then on, also
    when registration was closed before and the update asked to keep it
    closed. *)
Theorem failed_dump_reads_open (request : SettingsUpdateRequest) (d : Disk)
    (m : gmap string json) (err : string) :
  @load_settings exn d = (Ok (JObj m), d) ->
  fault d = DumpFails err ->
  fst (update_settings request d)
  = Raise (HTTPException 500 "Failed to save settings") /\
  get_settings (snd (update_settings request d)) =
    (Ok {| registration_open := true |}, snd (update_settings request d)) /\
  get_registration_status (snd (update_settings request d)) =
    (Ok (JObj (<["registration_open" := JBool true]> ∅)),
     snd (update_settings request d)).
Proof.
  intros Hload Hfault.
  rewrite (update_settings_of_mapping _ _ _ Hload), Hfault. simpl.
  split; [reflexivity |].
  unfold get_settings, get_registration_status, try_except, bind.
  rewrite !load_settings_written_garbled. split; reflexivity.
Qed.

(** X15.  On a file that holds JSON other than a mapping no update
    returns: the answer is a 500 in every case.  An update that sets the
    flag fails on the assignment, before anything is saved, and leaves the
    disk as it was; an update without the field gets as far as the save,
    which, when it goes through, writes back the value just loaded. *)
Theorem update_settings_on_non_mapping (request : SettingsUpdateRequest)
    (d : Disk) (held : json) :
  file d = Holds held ->
  (forall m, held <> JObj m) ->
  http_status (fst (update_settings request d)) = 500 /\
  (forall b, requested_registration_open request = Some b ->
             snd (update_settings request d) = d) /\
  (requested_registration_open request = None -> fault d = NoFault ->
   file (snd (update_settings request d)) = Holds held).
Proof.
  intros Hfile Hnot.
  assert (Hload : @load_settings exn d = (Ok held, d))
    by (apply load_settings_holds; exact Hfile).
  destruct request as [[b|]].
  - assert (Hrun : exists message,
              update_settings {| requested_registration_open := Some b |} d
              = (Raise (HTTPException 500
                          ("Failed to update settings: " +:+ message)), d)).
    { unfold update_settings, try_except, bind at 1. rewrite Hload.
      destruct held as [| b0 | n | repr | s | items | m];
        try (eexists; reflexivity).
      exfalso. exact (Hnot m eq_refl). }
    destruct Hrun as [message Hrun]. rewrite Hrun. simpl.
    split; [reflexivity |].
    split; [intros b' _; reflexivity | intros Hn; discriminate Hn].
  - assert (Hrun : exists detail,
              update_settings {| requested_registration_open := None |} d
              = (Raise (HTTPException 500 detail),
                 match fault d with
                 | NoFault => {| file := Holds held; fault := NoFault |}
                 | _ => snd (@save_settings exn held d)
                 end)).
    { unfold update_settings, try_except, bind at 1. rewrite Hload.
      simpl. unfold bind, ret. rewrite save_settings_run, Hfile.
      destruct (fault d); simpl; try (eexists; reflexivity).
      destruct held as [| b0 | n | repr | s | items | m];
        try (eexists; reflexivity).
      exfalso. exact (Hnot m eq_refl). }
    destruct Hrun as [detail Hrun]. rewrite Hrun. simpl.
    split; [reflexivity |].
    split; [intros b' Hn; discriminate Hn |].
    intros _ Hfault. rewrite Hfault. reflexivity.
Qed.

(** X16.  The last update wins.  After an update that set the flag and
    returned, a second update that sets it does exactly what it would have
    done in place of the first: same answer, same file. *)
Theorem update_settings_last_wins (b1 b2 : bool) (d d1 : Disk)
    (response : SettingsResponse) :
  update_settings {| requested_registration_open := Some b1 |} d
  = (Ok response, d1) ->
  update_settings {| requested_registration_open := Some b2 |} d1 =
  update_settings {| requested_registration_open := Some b2 |} d.
Proof.
  intros Hfirst.
  apply update_settings_set_returns in Hfirst
    as [m [Hload [Hfault [_ ->]]]].
  destruct d as [f flt]. simpl in Hfault. subst flt.
  destruct f as [|err|err|held]; simpl; [| reflexivity | |];
    rewrite (update_settings_of_mapping _ _ _ Hload);
    (erewrite update_settings_of_mapping
       by (apply load_settings_holds; reflexivity));
    simpl; rewrite insert_insert_eq; reflexivity.
Qed.

(** X17.  Files the service can have written stay that way.  Call a file
    well formed when it is absent, does not load, or holds a mapping whose
    [registration_open], if present, is a boolean.  Every update leaves a
    well-formed file well formed, whatever fails; and on a well-formed
    file an update whose save goes through always returns. *)
Theorem update_settings_keeps_well_formed (request : SettingsUpdateRequest)
    (d : Disk) :
  well_formed (file d) ->
  well_formed (file (snd (update_settings request d))) /\
  (fault d = NoFault ->
   exists response, fst (update_settings request d) = Ok response).
Proof.
  intros Hwf.
  assert (Hload : exists m, @load_settings exn d = (Ok (JObj m), d) /\
                            flag_is_boolean m).
  { destruct (file d) as [|err|err|held] eqn:Hfile.
    1-3: exists (<["registration_open" := JBool true]> ∅); split;
         [apply load_settings_default; rewrite Hfile; discriminate
         | right; exists true; apply lookup_insert_eq].
    destruct held as [| b0 | n | repr | s | items | m];
      try (exfalso; exact Hwf).
    exists m. split; [apply load_settings_holds; exact Hfile | exact Hwf]. }
  destruct Hload as [m [Hload Hm]].
  pose proof (update_settings_of_mapping request d m Hload) as Hrun.
  simpl in Hrun.
  set (m' := match requested_registration_open request with
             | Some b => <["registration_open" := JBool b]> m
             | None => m
             end) in *.
  assert (Hm' : flag_is_boolean m').
  { unfold m'. destruct (requested_registration_open request) as [b|];
      [right; exists b; apply lookup_insert_eq | exact Hm]. }
  assert (Hvalue : exists b, default (JBool true) (m' !! "registration_open")
                             = JBool b).
  { destruct Hm' as [Hnone | [b Hsome]].
    - rewrite Hnone. exists true. reflexivity.
    - rewrite Hsome. exists b. reflexivity. }
  destruct Hvalue as [b Hvalue]. rewrite Hvalue in Hrun.
  rewrite Hrun. destruct (fault d) eqn:Hfault; simpl.
  - split; [| intros _; eexists; reflexivity].
    destruct (file d); simpl; first [exact Hm' | exact I].
  - split; [exact Hwf | discriminate].
  - split; [exact Hwf | discriminate].
  - split; [| discriminate]. destruct (file d); exact I.
Qed.

(** X18.  An update overwrites a file that does not load.  When the file
    is absent or is not JSON and the save goes through, the file
    afterwards holds the single entry [registration_open], with the
    requested value, or [True] when the request has none, and that is the
    value returned.  When the file cannot be opened for reading, the
    update returns the same value and the file still cannot be read. *)
Theorem update_settings_replaces_unloadable (request : SettingsUpdateRequest)
    (d : Disk) :
  (forall held, file d <> Holds held) ->
  fault d = NoFault ->
  let flag := default true (requested_registration_open request) in
  fst (update_settings request d) = Ok {| registration_open := flag |} /\
  ((forall err, file d <> Unreadable err) ->
   snd (update_settings request d) =
     {| file := Holds (JObj (<["registration_open" := JBool flag]> ∅));
        fault := NoFault |}) /\
  (forall err, file d = Unreadable err -> snd (update_settings request d) = d).
Proof.
  intros Hfile Hfault flag.
  rewrite (update_settings_of_mapping request d
             (<["registration_open" := JBool true]> ∅)
             (load_settings_default d Hfile)), Hfault.
  assert (Hm : (match requested_registration_open request with
                | Some b =>
                    <["registration_open" := JBool b]>
                      (<["registration_open" := JBool true]> ∅)
                | None => <["registration_open" := JBool true]> ∅
                end : gmap string json)
               = <["registration_open" := JBool flag]> ∅).
  { unfold flag. destruct (requested_registration_open request) as [b|]; simpl;
      [apply insert_insert_eq | reflexivity]. }
  simpl. rewrite Hm, lookup_insert_eq. simpl.
  split; [reflexivity |]. split.
  - intros Hread. rewrite (written_readable _ _ Hread). reflexivity.
  - intros err Hunreadable. rewrite Hunreadable. simpl.
    destruct d as [f flt]. simpl in Hunreadable, Hfault. subst. reflexivity.
Qed.


End SettingsFurther.

(** * The further properties on concrete runs *)

Section FurtherRuns.
Import Admin Settings Scripted.

(** Page 3 of 20 with both filters: offset 40, one call. *)
Lemma list_registrations_first_call_returns_witness :
  list_registrations 3 20 (Some "rov") (Some "approved") (start []) =
  (Ok {| data := [sample_document]; total := 1; page := 3; limit := 20 |},
   {| remote := [];
      trace :=
        [Returned Call_get_appwrite_client;
         Returned (Call_list_documents "chancity" "registrations"
                     [Query_equal "status" "approved";
                      Query_search "team_name" "rov";
                      Query_limit 20; Query_offset 40;
                      Query_order_desc "$createdAt"])] |}).
Proof.
  exact (@list_registrations_first_call_returns Script appwrite
           3 20 (Some "rov") (Some "approved") (start []) [] []
           {| dl_documents := Some [sample_document]; dl_total := Some 1 |}
           eq_refl eq_refl).
Defined.

(** A client that cannot be built, with a message that speaks of search:
    the listing is a 500 all the same and the store is never called. *)
Lemma client_failure_makes_no_store_call_witness :
  @list_registrations Script guarded 1 10 (Some "rov") None
    (start [Some "search endpoint not configured"; None]) =
  (Raise (HTTPException 500
            "Failed to list registrations: search endpoint not configured"),
   {| remote := [None];
      trace := [Failed Call_get_appwrite_client
                  "search endpoint not configured"] |}) /\
  fst (@get_stats Script guarded
         (start [Some "search endpoint not configured"; None])) =
  Ok {| stats_total := 0; stats_pending := 0;
        stats_approved := 0; stats_rejected := 0 |}.
Proof.
  destruct (@client_failure_makes_no_store_call Script guarded
              "search endpoint not configured"
              (start [Some "search endpoint not configured"; None]) [None]
              1 10 (Some "rov") None "r1" "approved" eq_refl eq_refl)
    as [Hlist [_ [_ [_ Hstats]]]].
  split; [exact Hlist | exact (f_equal fst Hstats)].
Defined.

Lemma update_registration_status_returns_witness :
  fst (update_registration_status "r1" "approved" (start [])) =
  Ok {| su_success := true;
        su_message := "Status updated to approved";
        su_data := JObj (<["status" := JStr "approved"]> ∅) |}.
Proof.
  exact (f_equal fst
           (proj1 (@update_registration_status_returns Script appwrite
                     "r1" "approved" (start []) [] []
                     (JObj (<["status" := JStr "approved"]> ∅))
                     eq_refl eq_refl eq_refl))).
Defined.

Lemma get_and_delete_pass_through_witness :
  fst (get_registration "r1" (start [])) = Ok sample_document /\
  fst (delete_registration "r1" (start [])) =
  Ok {| del_success := true;
        del_message := "Registration deleted successfully" |}.
Proof.
  destruct (@get_and_delete_pass_through Script appwrite "r1" (start []) []
              eq_refl) as [Hget Hdelete].
  split.
  - exact (f_equal fst (Hget [] sample_document eq_refl)).
  - exact (f_equal fst (Hdelete [] eq_refl)).
Defined.

Lemma get_stats_reports_totals_witness :
  fst (get_stats (start [])) =
  Ok {| stats_total := 1; stats_pending := 1;
        stats_approved := 1; stats_rejected := 1 |}.
Proof.
  exact (f_equal fst
           (@get_stats_reports_totals Script appwrite (start []) [] [] [] [] []
              {| dl_documents := Some [sample_document]; dl_total := Some 1 |}
              {| dl_documents := Some [sample_document]; dl_total := Some 1 |}
              {| dl_documents := Some [sample_document]; dl_total := Some 1 |}
              {| dl_documents := Some [sample_document]; dl_total := Some 1 |}
              eq_refl eq_refl eq_refl eq_refl eq_refl)).
Defined.

(** A file edited by hand to say ["no"]: the public read hands the string
    out, the admin read answers what pydantic reads in it. *)
Lemma reads_of_stored_value_witness :
  get_registration_status
    {| file := Holds (JObj (<["registration_open" := JStr "no"]> ∅));
       fault := NoFault |} =
  (Ok (JObj (<["registration_open" := JStr "no"]> ∅)),
   {| file := Holds (JObj (<["registration_open" := JStr "no"]> ∅));
      fault := NoFault |}) /\
  fst (get_settings
         {| file := Holds (JObj (<["registration_open" := JStr "no"]> ∅));
            fault := NoFault |}) = Ok {| registration_open := false |}.
Proof.
  assert (Hflag : (<["registration_open" := JStr "no"]>
                     (∅ : gmap string json)) !! "registration_open"
                  = Some (JStr "no"))
    by (vm_compute; reflexivity).
  destruct (@reads_of_stored_value lax
              {| file := Holds (JObj (<["registration_open" := JStr "no"]> ∅));
                 fault := NoFault |}
              (<["registration_open" := JStr "no"]> ∅) (JStr "no")
              eq_refl Hflag) as [Hpublic [_ Hadmin]].
  split; [exact Hpublic |].
  refine (f_equal fst (Hadmin _)). intros b Hb. discriminate Hb.
Defined.

(** Registration is closed, the disk fills up during an update that
    changes nothing: registration reads as open afterwards. *)
Lemma failed_dump_reads_open_witness :
  fst (get_settings
         {| file := Holds (JObj (<["registration_open" := JBool false]> ∅));
            fault := DumpFails "[Errno 28] No space left on device" |})
  = Ok {| registration_open := false |} /\
  fst (get_settings
         (snd (update_settings {| requested_registration_open := None |}
                 {| file := Holds (JObj (<["registration_open" := JBool false]> ∅));
                    fault := DumpFails "[Errno 28] No space left on device" |})))
  = Ok {| registration_open := true |}.
Proof.
  split; [vm_compute; reflexivity |].
  exact (f_equal fst
           (proj1 (proj2
              (@failed_dump_reads_open lax
                 {| requested_registration_open := None |}
                 {| file := Holds (JObj (<["registration_open" := JBool false]> ∅));
                    fault := DumpFails "[Errno 28] No space left on device" |}
                 (<["registration_open" := JBool false]> ∅)
                 "[Errno 28] No space left on device" eq_refl eq_refl)))).
Defined.

(** A file that holds a list. *)
Lemma update_settings_on_non_mapping_witness :
  http_status
    (fst (update_settings {| requested_registration_open := Some false |}
            {| file := Holds (JArr [JBool true]); fault := NoFault |})) = 500 /\
  snd (update_settings {| requested_registration_open := Some false |}
         {| file := Holds (JArr [JBool true]); fault := NoFault |}) =
  {| file := Holds (JArr [JBool true]); fault := NoFault |}.
Proof.
  destruct (@update_settings_on_non_mapping lax
              {| requested_registration_open := Some false |}
              {| file := Holds (JArr [JBool true]); fault := NoFault |}
              (JArr [JBool true]) eq_refl
              (fun m (Heq : JArr [JBool true] = JObj m) =>
                 eq_ind (JArr [JBool true])
                   (fun v => match v with JArr _ => True | _ => False end)
                   I (JObj m) Heq))
    as [Hstatus [Hdisk _]].
  split; [exact Hstatus | exact (Hdisk false eq_refl)].
Defined.

(** Close, then open again, on a fresh install. *)
Lemma update_settings_last_wins_witness :
  update_settings {| requested_registration_open := Some true |}
    (snd (update_settings {| requested_registration_open := Some false |}
            {| file := Missing; fault := NoFault |})) =
  update_settings {| requested_registration_open := Some true |}
    {| file := Missing; fault := NoFault |}.
Proof.
  exact (@update_settings_last_wins lax false true
           {| file := Missing; fault := NoFault |} _ _ eq_refl).
Defined.

(** A fresh install is well formed, and stays so. *)
Lemma update_settings_keeps_well_formed_witness :
  well_formed (file {| file := Missing; fault := NoFault |}) /\
  well_formed
    (file (snd (update_settings {| requested_registration_open := Some false |}
                  {| file := Missing; fault := NoFault |}))) /\
  exists response,
    fst (update_settings {| requested_registration_open := Some false |}
           {| file := Missing; fault := NoFault |}) = Ok response.
Proof.
  split; [exact I |].
  destruct (@update_settings_keeps_well_formed lax
              {| requested_registration_open := Some false |}
              {| file := Missing; fault := NoFault |} I)
    as [Hwf Hreturns].
  split; [exact Hwf | exact (Hreturns eq_refl)].
Defined.

(** A file that is not JSON is replaced by the one entry. *)
Lemma update_settings_replaces_unloadable_witness :
  update_settings {| requested_registration_open := Some false |}
    {| file := Garbled "Expecting value: line 1 column 1 (char 0)";
       fault := NoFault |} =
  (Ok {| registration_open := false |},
   {| file := Holds (JObj (<["registration_open" := JBool false]> ∅));
      fault := NoFault |}).
Proof.
  assert (Hnone : forall held,
            file {| file := Garbled "Expecting value: line 1 column 1 (char 0)";
                    fault := NoFault |} <> Holds held)
    by (intros held Hheld; discriminate Hheld).
  destruct (@update_settings_replaces_unloadable lax
              {| requested_registration_open := Some false |}
              {| file := Garbled "Expecting value: line 1 column 1 (char 0)";
                 fault := NoFault |} Hnone eq_refl)
    as [Hanswer [Hfile _]].
  apply injective_projections; [exact Hanswer |].
  apply Hfile. intros err Heq. discriminate Heq.
Defined.

End FurtherRuns.

(** * Pagination, and the two settings reads side by side *)

Section Pagination.
Import Admin.
Context {Remote : Type} `{!Appwrite Remote}.




End Pagination.

Section SettingsAgreement.
Import Settings.
Context `{Pydantic}.

(** X21.  On a well-formed file the two reads agree: there is one boolean
    that the admin read returns and the public read returns under
    [registration_open]. *)
Theorem reads_agree_on_well_formed (d : Disk) :
  well_formed (file d) ->
  exists b,
    get_settings d = (Ok {| registration_open := b |}, d) /\
    get_registration_status d =
      (Ok (JObj (<["registration_open" := JBool b]> ∅)), d).
Proof.
  intros Hwf.
  assert (Hload : exists m b, @load_settings exn d = (Ok (JObj m), d) /\
                    default (JBool true) (m !! "registration_open") = JBool b).
  { destruct (file d) as [|err|err|held] eqn:Hfile.
    1-3: exists (<["registration_open" := JBool true]> ∅), true; split;
         [apply load_settings_default; rewrite Hfile; discriminate
         | apply default_flag_lookup].
    destruct held as [| b0 | n | repr | s | items | m];
      try (exfalso; exact Hwf).
    destruct Hwf as [Hnone | [b Hsome]].
    - exists m, true. split; [apply load_settings_holds; exact Hfile |].
      rewrite Hnone. reflexivity.
    - exists m, b. split; [apply load_settings_holds; exact Hfile |].
      rewrite Hsome. reflexivity. }
  destruct Hload as [m [b [Hload Hflag]]]. exists b. split.
  - rewrite (get_settings_of_mapping _ _ Hload), Hflag. reflexivity.
  - unfold get_registration_status, try_except, bind. rewrite Hload.
    unfold dict_get, ret. rewrite Hflag. reflexivity.
Qed.

(** X22.  Setting the flag to the value it has changes nothing: when the
    file holds a mapping whose [registration_open] is the boolean [b] and
    the save goes through, an update with [b] returns [b] and leaves the
    very same file. *)
Theorem update_settings_same_value (b : bool) (d : Disk)
    (m : gmap string json) :
  file d = Holds (JObj m) ->
  m !! "registration_open" = Some (JBool b) ->
  fault d = NoFault ->
  update_settings {| requested_registration_open := Some b |} d =
    (Ok {| registration_open := b |}, d).
Proof.
  intros Hfile Hflag Hfault.
  rewrite (update_settings_of_mapping _ _ _ (load_settings_holds _ _ Hfile)),
    Hfault.
  simpl. rewrite lookup_insert_eq. simpl.
  rewrite (insert_id _ _ _ Hflag).
  destruct d as [f flt]. simpl in Hfile, Hfault. subst. reflexivity.
Qed.

End SettingsAgreement.

Section LastRuns.
Import Admin Settings Scripted.


Lemma reads_agree_on_well_formed_witness :
  well_formed (file {| file := Unreadable "[Errno 13] Permission denied";
                       fault := NoFault |}) /\
  exists b,
    get_settings {| file := Unreadable "[Errno 13] Permission denied";
                    fault := NoFault |} =
    (Ok {| registration_open := b |},
     {| file := Unreadable "[Errno 13] Permission denied";
        fault := NoFault |}) /\
    get_registration_status
      {| file := Unreadable "[Errno 13] Permission denied";
         fault := NoFault |} =
    (Ok (JObj (<["registration_open" := JBool b]> ∅)),
     {| file := Unreadable "[Errno 13] Permission denied";
        fault := NoFault |}).
Proof.
  split; [exact I |].
  exact (@reads_agree_on_well_formed lax
           {| file := Unreadable "[Errno 13] Permission denied";
              fault := NoFault |} I).
Defined.

Lemma update_settings_same_value_witness :
  update_settings {| requested_registration_open := Some false |}
    {| file := Holds (JObj (<["registration_open" := JBool false]> ∅));
       fault := NoFault |} =
  (Ok {| registration_open := false |},
   {| file := Holds (JObj (<["registration_open" := JBool false]> ∅));
      fault := NoFault |}).
Proof.
  assert (Hflag : (<["registration_open" := JBool false]>
                     (∅ : gmap string json)) !! "registration_open"
                  = Some (JBool false))
    by (vm_compute; reflexivity).
  exact (@update_settings_same_value lax false
           {| file := Holds (JObj (<["registration_open" := JBool false]> ∅));
              fault := NoFault |}
           (<["registration_open" := JBool false]> ∅)
           eq_refl Hflag eq_refl).
Defined.

End LastRuns.
